(** * ha-cumtd: the CUMTD client, the departure selection and the refresh cycle

    A shallow embedding of [custom_components/cumtd_bus/api.py] and
    [custom_components/cumtd_bus/coordinator.py].

    Python values that travel through the code (parsed JSON bodies, the
    [trip] dict of a departure) are values of [pyval]; a coroutine that may
    raise is a computation in the exception monad [result]; the network is
    the outcome of one [client.get] call. *)

From Stdlib Require Import String Ascii List ZArith Bool Lia.
Import ListNotations.

Local Open Scope Z_scope.
Local Set Warnings "-register-all".

(* ================================================================= *)
(** ** Python values *)

(** What [response.json()] can return, and what a [dict] field of a
    pydantic model built from it can hold.  A [PDict] lists the items of the
    dict in insertion order; as in any Python dict no key occurs twice.
    JSON numbers with a fraction or an exponent (Python floats) are left out
    of the model. *)
Inductive pyval : Type :=
  | PNone
  | PBool (b : bool)
  | PInt (z : Z)
  | PStr (s : string)
  | PList (l : list pyval)
  | PDict (items : list (string * pyval)).

Definition pydict : Type := list (string * pyval).

(** [k in d] and [d.get(k)] on the items of a dict. *)
Fixpoint dict_lookup (k : string) (d : pydict) : option pyval :=
  match d with
  | [] => None
  | (k', v) :: d' => if String.eqb k k' then Some v else dict_lookup k d'
  end.

Definition dict_has (k : string) (d : pydict) : bool :=
  match dict_lookup k d with Some _ => true | None => false end.

(** [d.get(k, default)] *)
Definition dict_get (k : string) (default : pyval) (d : pydict) : pyval :=
  match dict_lookup k d with Some v => v | None => default end.

(** [d[k] = v]: replaces the value of an existing key in place, appends a
    new key at the end. *)
Fixpoint dict_set (k : string) (v : pyval) (d : pydict) : pydict :=
  match d with
  | [] => [(k, v)]
  | (k', v') :: d' =>
      if String.eqb k k' then (k', v) :: d' else (k', v') :: dict_set k v d'
  end.

(** Truth value of an object, as tested by [if x], [not x], [x and y]. *)
Definition truthy (v : pyval) : bool :=
  match v with
  | PNone => false
  | PBool b => b
  | PInt z => negb (z =? 0)
  | PStr s => negb (String.eqb s EmptyString)
  | PList l => match l with [] => false | _ :: _ => true end
  | PDict d => match d with [] => false | _ :: _ => true end
  end.

(** [x != 200] for [x] a parsed JSON value: only the integer 200 is equal
    to 200 ([True] is 1, and no string, list, dict or [None] equals an int). *)
Definition py_ne_int (v : pyval) (n : Z) : bool :=
  match v with
  | PInt z => negb (z =? n)
  | PBool b => negb ((if b then 1 else 0) =? n)
  | _ => true
  end.

(* ================================================================= *)
(** ** Exceptions and the exception monad *)

(** An f-string before rendering: its literal pieces and the values that
    are interpolated into it. *)
Inductive fpart : Type :=
  | Lit (s : string)
  | Interp (v : pyval).

Definition fstring : Type := list fpart.

(** Failures of the transport underneath [client.get]: the httpx exceptions. *)
Inductive httpx_error : Type :=
  | NetworkError        (* the host cannot be reached, the connection drops *)
  | TimeoutException    (* the call exceeded [timeout=10.0] *)
  | OtherTransportError.

(** The exceptions that the modelled code raises or lets through.
    [AuthenticationError] is a subclass of [CUMTDAPIError]; [UpdateFailed] is
    the host framework's; the others are Python's and the libraries'. *)
Inductive exn : Type :=
  | CUMTDAPIError (msg : fstring)
  | AuthenticationError (msg : fstring)
  | UpdateFailed (cause : exn)   (* f"Error fetching bus data: {err}", from err *)
  | HTTPXError (e : httpx_error)
  | JSONDecodeError
  | KeyError (key : string)
  | TypeError
  | AttributeError
  | ValidationError.

(** [isinstance(e, CUMTDAPIError)]: what [except CUMTDAPIError] catches. *)
Definition is_CUMTDAPIError (e : exn) : bool :=
  match e with
  | CUMTDAPIError _ | AuthenticationError _ => true
  | _ => false
  end.

(** [isinstance(e, AuthenticationError)] *)
Definition is_AuthenticationError (e : exn) : bool :=
  match e with
  | AuthenticationError _ => true
  | _ => false
  end.

(** [str(e)] as an unrendered f-string. *)
Fixpoint exn_message (e : exn) : fstring :=
  match e with
  | CUMTDAPIError m | AuthenticationError m => m
  | UpdateFailed err => Lit "Error fetching bus data: " :: exn_message err
  | _ => []
  end.

Inductive result (A : Type) : Type :=
  | Return (a : A)
  | Raise (e : exn).

Arguments Return {A} a.
Arguments Raise {A} e.

Definition bind {A B : Type} (m : result A) (k : A -> result B) : result B :=
  match m with
  | Return a => k a
  | Raise e => Raise e
  end.

(** [try: body / except <class> as err: handler(err)]: an exception of
    another class passes through. *)
Definition try_except {A : Type} (body : result A) (catches : exn -> bool)
    (handler : exn -> result A) : result A :=
  match body with
  | Return a => Return a
  | Raise e => if catches e then handler e else Raise e
  end.

Declare Scope py_scope.
Delimit Scope py_scope with py.
Notation "x <- m ;; k" := (bind m (fun x => k))
  (at level 61, m at next level, right associativity) : py_scope.
Local Open Scope py_scope.

(** *** Operations on values that raise on the wrong type *)

(** [needle in v] for a string [needle]. *)
Definition py_contains (needle : string) (v : pyval) : result bool :=
  match v with
  | PDict d => Return (dict_has needle d)
  | PList l =>
      Return (existsb (fun x => match x with
                                | PStr s => String.eqb s needle
                                | _ => false
                                end) l)
  | PStr s => Return (match String.index 0 needle s with
                      | Some _ => true
                      | None => false
                      end)
  | _ => Raise TypeError
  end.

(** [v[k]] for a string [k]. *)
Definition py_getitem (v : pyval) (k : string) : result pyval :=
  match v with
  | PDict d => match dict_lookup k d with
               | Some x => Return x
               | None => Raise (KeyError k)
               end
  | _ => Raise TypeError
  end.

(** [v.get(k, default)] *)
Definition py_get (v : pyval) (k : string) (default : pyval) : result pyval :=
  match v with
  | PDict d => Return (dict_get k default d)
  | _ => Raise AttributeError
  end.

(** The elements that [for x in v] visits: the items of a list, the keys of
    a dict, the one-character strings of a string. *)
Definition py_iter (v : pyval) : result (list pyval) :=
  match v with
  | PList l => Return l
  | PDict d => Return (map (fun kv => PStr (fst kv)) d)
  | PStr s => Return (map (fun c => PStr (String c EmptyString)) (list_ascii_of_string s))
  | _ => Raise TypeError
  end.

(** [[f(x) for x in l]]: the first exception ends the comprehension. *)
Fixpoint mapM {A B : Type} (f : A -> result B) (l : list A) : result (list B) :=
  match l with
  | [] => Return []
  | x :: l' =>
      y <- f x ;;
      ys <- mapM f l' ;;
      Return (y :: ys)
  end.

(* ================================================================= *)
(** ** api.py *)

Module api.

(** [datetime.datetime] *)
Record datetime : Type := {
  year : Z; month : Z; day : Z;
  hour : Z; minute : Z; second : Z; microsecond : Z;
  utcoffset : option Z
}.

Record Route : Type := {
  route_id : string;
  route_short_name : option string
}.

Record Departure : Type := {
  stop_id : string;
  headsign : string;
  route : Route;
  trip : pydict;
  expected : datetime;
  expected_mins : Z;
  scheduled : datetime;
  is_monitored : bool
}.

(** [trip.get(key) if trip else None], for whatever object [trip] is: a
    falsy [trip] ([None], an empty dict) gives [None] without a lookup. *)
Definition trip_get (trip : pyval) (key : string) : result pyval :=
  if truthy trip then py_get trip key PNone else Return PNone.

(** The property [Departure.direction]. *)
Definition direction (self : Departure) : result pyval :=
  trip_get (PDict (trip self)) "direction".

(** The property [Departure.trip_id]. *)
Definition trip_id (self : Departure) : result pyval :=
  trip_get (PDict (trip self)) "trip_id".

Record DeparturesResponse : Type := {
  time : datetime;
  departures : list Departure
}.

(** The HTTP layer: the response object of httpx, and what one
    [await client.get(url, params=params)] on the lazily created session
    comes to (establishing the session included). *)
Record Response : Type := {
  status_code : Z;
  json : option pyval          (* [None]: the body is not JSON, [.json()] raises *)
}.

Inductive get_outcome : Type :=
  | GetRaises (e : httpx_error)
  | GetReturns (r : Response).

Record CUMTDClient : Type := {
  api_key : string;
  _client : string -> pydict -> get_outcome   (* the session's [get] *)
}.

Definition BASE_URL : string := "https://developer.cumtd.com/api/v2.2/json".

(** [url = f"{self.BASE_URL}/{method}"] *)
Definition request_url (method : string) : string :=
  (BASE_URL ++ "/" ++ method)%string.

Definition _request (self : CUMTDClient) (method : string) (params : pydict)
    : result pyval :=
  let url := request_url method in
  let params := dict_set "key" (PStr (api_key self)) params in
  match _client self url params with
  | GetRaises e => Raise (HTTPXError e)
  | GetReturns response =>
      if status_code response =? 401 then
        Raise (AuthenticationError [Lit "Invalid API key"])
      else
        match json response with
        | None => Raise JSONDecodeError
        | Some data =>
            has_status <- py_contains "status" data ;;
            if has_status then
              status <- py_getitem data "status" ;;
              code <- py_getitem status "code" ;;
              if py_ne_int code 200 then
                msg <- py_getitem status "msg" ;;
                Raise (CUMTDAPIError
                         [Lit "API error "; Interp code; Lit ": "; Interp msg])
              else Return data
            else Return data
        end
  end.

Definition validate_api_key (self : CUMTDClient) : result bool :=
  match _request self "getstops" [] with
  | Return _ => Return true
  | Raise e =>
      if is_AuthenticationError e then Raise e          (* except AuthenticationError: raise *)
      else if is_CUMTDAPIError e then Return true       (* except CUMTDAPIError: return True *)
      else Raise e
  end.

Definition opt_val {A : Type} (f : A -> pyval) (o : option A) : pyval :=
  match o with Some a => f a | None => PNone end.

(** The [params] dict of [get_departures_by_stop]; an argument left out is
    [None]. *)
Definition departures_params (stop_id : string) (route_id : option string)
    (count : option Z) : pydict :=
  [("stop_id", PStr stop_id);
   ("route_id", opt_val PStr route_id);
   ("count", opt_val PInt count)]%string.

Section Pydantic.

(** pydantic's validation is a library's: how a raw value becomes a
    [datetime], and how keyword arguments become a [Departure]
    ([None] stands for its [ValidationError]). *)
Variable validate_datetime : pyval -> option datetime.
Variable validate_Departure : pydict -> option Departure.

(** [Departure] applied to the keyword arguments [d] *)
Definition Departure_init (d : pyval) : result Departure :=
  match d with
  | PDict kwargs =>
      match validate_Departure kwargs with
      | Some dep => Return dep
      | None => Raise ValidationError
      end
  | _ => Raise TypeError
  end.

(** [DeparturesResponse(time=..., departures=[...])] *)
Definition DeparturesResponse_init (time : pyval) (departures : list Departure)
    : result DeparturesResponse :=
  match validate_datetime time with
  | Some t => Return {| time := t; departures := departures |}
  | None => Raise ValidationError
  end.

Definition get_departures_by_stop (self : CUMTDClient) (stop_id : string)
    (route_id : option string) (count : option Z) : result DeparturesResponse :=
  let params := departures_params stop_id route_id count in
  data <- _request self "getdeparturesbystop" params ;;
  time <- py_getitem data "time" ;;
  raw <- py_get data "departures" (PList []) ;;
  ds <- py_iter raw ;;
  departures <- mapM Departure_init ds ;;
  DeparturesResponse_init time departures.

End Pydantic.

(** *** Stops and routes *)

Record Stop : Type := {
  Stop_stop_id : string;
  Stop_stop_name : string
}.

Record StopsResponse : Type := {
  StopsResponse_time : datetime;
  stops : list Stop
}.

Record RoutesResponse : Type := {
  RoutesResponse_time : datetime;
  routes : list Route
}.

(** [needle in s] on two strings. *)
Definition str_contains (needle s : string) : bool :=
  match String.index 0 needle s with
  | Some _ => true
  | None => false
  end.

Section Search.

(** [str.lower] is Python's; the validation of [Stop] and [Route] is
    pydantic's, as that of [Departure] is. *)
Variable lower : string -> string.
Variable validate_datetime : pyval -> option datetime.
Variable validate_Stop : pydict -> option Stop.
Variable validate_Route : pydict -> option Route.

(** [Stop] applied to the keyword arguments [s] *)
Definition Stop_init (s : pyval) : result Stop :=
  match s with
  | PDict kwargs =>
      match validate_Stop kwargs with
      | Some stop => Return stop
      | None => Raise ValidationError
      end
  | _ => Raise TypeError
  end.

(** [Route] applied to the keyword arguments [r] *)
Definition Route_init (r : pyval) : result Route :=
  match r with
  | PDict kwargs =>
      match validate_Route kwargs with
      | Some route => Return route
      | None => Raise ValidationError
      end
  | _ => Raise TypeError
  end.

Definition StopsResponse_init (time : pyval) (stops : list Stop)
    : result StopsResponse :=
  match validate_datetime time with
  | Some t => Return {| StopsResponse_time := t; stops := stops |}
  | None => Raise ValidationError
  end.

Definition RoutesResponse_init (time : pyval) (routes : list Route)
    : result RoutesResponse :=
  match validate_datetime time with
  | Some t => Return {| RoutesResponse_time := t; routes := routes |}
  | None => Raise ValidationError
  end.

(** The condition of the search:
    [query_lower in stop.stop_name.lower()] *)
Definition stop_matches (query_lower : string) (stop : Stop) : bool :=
  str_contains query_lower (lower (Stop_stop_name stop)).

Definition get_stops_by_search (self : CUMTDClient) (query : string)
    : result StopsResponse :=
  data <- _request self "getstops" [] ;;
  raw <- py_get data "stops" (PList []) ;;
  ss <- py_iter raw ;;
  all_stops <- mapM Stop_init ss ;;
  let query_lower := lower query in
  let matching_stops := filter (stop_matches query_lower) all_stops in
  time <- py_getitem data "time" ;;
  StopsResponse_init time matching_stops.

Definition get_routes_by_stop (self : CUMTDClient) (stop_id : string)
    : result RoutesResponse :=
  let params := [("stop_id", PStr stop_id)]%string in
  data <- _request self "getroutesbystop" params ;;
  raw <- py_get data "routes" (PList []) ;;
  rs <- py_iter raw ;;
  routes <- mapM Route_init rs ;;
  time <- py_getitem data "time" ;;
  RoutesResponse_init time routes.

End Search.

(** *** The session handle

    [self._client] is [None] until [_ensure_client] constructs the httpx
    client; what the two methods do to the outside is the construction of a
    client and the [aclose] of one.  Calls are taken one after another. *)
Inductive session_event : Type :=
  | Construct    (* [httpx.AsyncClient(timeout=10.0)] *)
  | Aclose.      (* [self._client.aclose()] *)

(** The state is whether [self._client is not None]. *)
Definition CUMTDClient_init : bool := false.

Definition _ensure_client (has_client : bool) : bool * list session_event :=
  if has_client then (has_client, []) else (true, [Construct]).

Definition close (has_client : bool) : bool * list session_event :=
  if has_client then (has_client, [Aclose]) else (has_client, []).

(** A sequence of uses of one client object: a request (which starts with
    [_ensure_client]) or a [close]. *)
Inductive session_call : Type :=
  | Request
  | Close.

Fixpoint session_run (has_client : bool) (calls : list session_call)
    : bool * list session_event :=
  match calls with
  | [] => (has_client, [])
  | call :: rest =>
      let '(has1, ev1) :=
        match call with
        | Request => _ensure_client has_client
        | Close => close has_client
        end in
      let '(has2, ev2) := session_run has1 rest in
      (has2, ev1 ++ ev2)
  end.

End api.

(* ================================================================= *)
(** ** coordinator.py *)

Module coordinator.

(** The object held in [self.client], as far as the coordinator uses it:
    its coroutine [get_departures_by_stop(stop_id=, route_id=, count=)]. *)
Record client_obj : Type := {
  get_departures_by_stop :
    string -> option string -> option Z -> result api.DeparturesResponse
}.

Record CUMTDBusCoordinator : Type := {
  client : client_obj;
  stop_id : string;
  stop_name : string;
  route_id : option string;
  direction_filter : option string
}.

(** [if self.direction_filter]: [None] and the empty string are falsy. *)
Definition filter_is_set (direction_filter : option string) : option string :=
  match direction_filter with
  | Some f => if String.eqb f EmptyString then None else Some f
  | None => None
  end.

Section Lower.

(** [str.lower] is Python's. *)
Variable lower : string -> string.

(** [v.lower()] on an object: only a [str] has the method. *)
Definition py_lower (v : pyval) : result string :=
  match v with
  | PStr s => Return (lower s)
  | _ => Raise AttributeError
  end.

(** The condition of the comprehension:
    [d.direction and self.direction_filter.lower() == d.direction.lower()] *)
Definition direction_matches (f : string) (d : api.Departure) : result bool :=
  dir <- api.direction d ;;
  if truthy dir then
    dir_lower <- py_lower dir ;;
    Return (String.eqb (lower f) dir_lower)
  else Return false.

(** [[d for d in departures if <condition>]] *)
Fixpoint filter_departures (f : string) (departures : list api.Departure)
    : result (list api.Departure) :=
  match departures with
  | [] => Return []
  | d :: rest =>
      keep <- direction_matches f d ;;
      kept <- filter_departures f rest ;;
      Return (if keep then d :: kept else kept)
  end.

Definition _async_update_data (self : CUMTDBusCoordinator)
    : result (option api.Departure) :=
  try_except
    (response <- get_departures_by_stop (client self)
                   (stop_id self) (route_id self) (Some 5) ;;
     match api.departures response with
     | [] => Return None
     | _ :: _ =>
         departures <-
           match filter_is_set (direction_filter self) with
           | Some f => filter_departures f (api.departures response)
           | None => Return (api.departures response)
           end ;;
         match departures with
         | [] => Return None
         | next_departure :: _ => Return (Some next_departure)
         end
     end)
    is_CUMTDAPIError
    (fun err => Raise (UpdateFailed err)).

End Lower.

(** The coordinator wired to the real client, as [async_setup_entry] does. *)
Definition of_CUMTDClient (validate_datetime : pyval -> option api.datetime)
    (validate_Departure : pydict -> option api.Departure)
    (c : api.CUMTDClient) : client_obj :=
  {| get_departures_by_stop :=
       api.get_departures_by_stop validate_datetime validate_Departure c |}.

End coordinator.

(* ================================================================= *)
(** ** The refresh cycle *)

Module scheduler.

(** What the refresh cycle keeps per target: [coordinator.data] and
    [coordinator.last_update_success] of the host framework. *)
Record RefreshState : Type := {
  last_data : option api.Departure;
  last_success : bool
}.

Section Lower.

Variable lower : string -> string.

(** Modelled from the spec: the refresh cycle of the host framework's
    [DataUpdateCoordinator], which is not part of the repository.  One tick
    awaits [_async_update_data]; a returned value (absent included) replaces
    [last_data] and sets [last_success]; a tick that raises clears
    [last_success] and leaves [last_data] as it was. *)
Definition tick (self : coordinator.CUMTDBusCoordinator) (st : RefreshState)
    : RefreshState :=
  match coordinator._async_update_data lower self with
  | Return data => {| last_data := data; last_success := true |}
  | Raise _ => {| last_data := last_data st; last_success := false |}
  end.

End Lower.

End scheduler.

(* ================================================================= *)
(** ** config_flow.py *)

Module config_flow.

(** [vol.Schema({vol.Required(key): str})] *)
Inductive schema_field : Type :=
  | Required_str (key : string).

(** What a step returns: the host framework's [async_create_entry] and
    [async_show_form] keep their arguments; [step_init] stands for
    [return await self.async_step_init()]. *)
Inductive flow_result : Type :=
  | create_entry (title : string) (data : pydict) (options : option pydict)
  | show_form (step_id : string) (data_schema : list schema_field)
      (errors : list (string * string))
      (description_placeholders : list (string * string))
  | step_init.

Definition user_form (errors : list (string * string)) : flow_result :=
  show_form "user" [Required_str "api_key"] errors
    [("info", "Enter your CUMTD API key. You can add stops after setup.")]%string.

(** The [except] clauses of [async_step_user], in their order. *)
Definition user_errors (e : exn) : list (string * string) :=
  if is_AuthenticationError e then [("base", "invalid_auth")]%string
  else if is_CUMTDAPIError e then [("base", "cannot_connect")]%string
  else [("base", "unknown")]%string.

(** [CUMTDBusConfigFlow.async_step_user].  [user_input] is the form data
    [{api_key: str}], checked against the step's schema by the flow manager,
    or [None] when the form is first shown; [network] is what the session of
    the client built in the step does. *)
Definition async_step_user (network : string -> pydict -> api.get_outcome)
    (user_input : option string) : flow_result :=
  match user_input with
  | Some api_key =>
      let client := {| api.api_key := api_key; api._client := network |} in
      match api.validate_api_key client with
      | Return _ =>
          create_entry "CUMTD Bus" [("api_key", PStr api_key)]%string
            (Some [("stops", PList [])]%string)
      | Raise e => user_form (user_errors e)
      end
  | None => user_form []
  end.

(** [stops.pop(idx)] for an index within the list. *)
Definition list_pop {A : Type} (idx : nat) (l : list A) : list A :=
  firstn idx l ++ skipn (S idx) l.

(** [CUMTDBusOptionsFlow.async_step_remove_stop].  [options] is
    [self._config_entry.options]; [idx] is a key of the stop selection form,
    a position counted from 0. *)
Definition async_step_remove_stop (options : pydict) (idx : nat)
    : result flow_result :=
  stops <- py_iter (dict_get "stops" (PList []) options) ;;
  if Nat.ltb idx (length stops) then
    Return (create_entry "" [("stops", PList (list_pop idx stops))]%string None)
  else Return step_init.

End config_flow.

(* ================================================================= *)
(** ** sensor.py *)

Module sensor.

(** [a or b] *)
Definition py_or (a b : pyval) : pyval := if truthy a then a else b.

(** [s.replace(old, new)] for one-character [old] and [new]. *)
Fixpoint str_replace (old new : ascii) (s : string) : string :=
  match s with
  | EmptyString => EmptyString
  | String c s' =>
      String (if Ascii.eqb c old then new else c) (str_replace old new s')
  end.

(** [v.replace(old, new)] on an object: only a [str] has the method. *)
Definition py_replace (v : pyval) (old new : ascii) : result string :=
  match v with
  | PStr s => Return (str_replace old new s)
  | _ => Raise AttributeError
  end.

(** [', '.join(parts)] before rendering. *)
Fixpoint join_parts (parts : list fstring) : fstring :=
  match parts with
  | [] => []
  | [p] => p
  | p :: rest => p ++ Lit ", " :: join_parts rest
  end.

Record CUMTDNextBusSensor : Type := {
  _attr_name : fstring;
  _attr_unique_id : string;
  _attr_icon : string
}.

Section Lower.

Variable lower : string -> string.

(** [CUMTDNextBusSensor.__init__]; [entry_id] is [entry.entry_id]. *)
Definition CUMTDNextBusSensor_init (coord : coordinator.CUMTDBusCoordinator)
    (entry_id : string) (stop_config : pydict) (custom_name : pyval)
    : result CUMTDNextBusSensor :=
  let base_name :=
    py_or custom_name
      (py_or (PStr (coordinator.stop_name coord))
         (py_or (dict_get "stop_name" PNone stop_config) (PStr "Bus Stop"))) in
  route_parts <-
    (if truthy (dict_get "route_id" PNone stop_config) then
       r <- py_getitem (PDict stop_config) "route_id" ;;
       Return [[Lit "Route "; Interp r]]
     else Return []) ;;
  direction_parts <-
    (if truthy (dict_get "direction_filter" PNone stop_config) then
       d <- py_getitem (PDict stop_config) "direction_filter" ;;
       Return [d]
     else Return []) ;;
  (* [', '.join] takes strings only *)
  direction_strs <-
    mapM (fun d => match d with
                   | PStr s => Return [Lit s]
                   | _ => Raise TypeError
                   end) direction_parts ;;
  let filter_parts := route_parts ++ direction_strs in
  let filter_str :=
    match filter_parts with
    | [] => [Lit ""]
    | _ :: _ => [Lit " ("] ++ join_parts filter_parts ++ [Lit ")"]
    end in
  let name := Interp base_name :: filter_str ++ [Lit " Next Bus"] in
  stop_id <- py_getitem (PDict stop_config) "stop_id" ;;
  let route_id := py_or (dict_get "route_id" PNone stop_config) (PStr "all") in
  let direction :=
    py_or (dict_get "direction_filter" PNone stop_config) (PStr "all") in
  s1 <- py_replace stop_id ":" "_" ;;
  let safe_stop := lower (str_replace " " "_" s1) in
  r1 <- py_replace route_id " " "_" ;;
  let safe_route := lower r1 in
  d1 <- py_replace direction " " "_" ;;
  let safe_direction := lower d1 in
  Return {| _attr_name := name;
            _attr_unique_id :=
              (entry_id ++ "_" ++ safe_stop ++ "_" ++ safe_route
                 ++ "_" ++ safe_direction)%string;
            _attr_icon := "mdi:bus" |}.

End Lower.

End sensor.

(* ================================================================= *)
(** ** __init__.py *)

Module integration.

(** An entry of the host's entity registry, as far as the cleanup reads it. *)
Record RegistryEntry : Type := {
  entity_id : string;
  unique_id : string
}.

Section Str.

(** [str(v)], as an f-string renders a value: Python's. *)
Variable py_str : pyval -> string.

(** The id the cleanup computes for one configured stop:
    [f"{entry.entry_id}_{stop_id}_{route_id}_{direction}"] *)
Definition stop_unique_id (entry_id : string) (stop : pyval) : result string :=
  stop_id <- py_getitem stop "stop_id" ;;
  r <- py_get stop "route_id" PNone ;;
  let route_id := sensor.py_or r (PStr "all") in
  d <- py_get stop "direction_filter" PNone ;;
  let direction := sensor.py_or d (PStr "all") in
  Return (entry_id ++ "_" ++ py_str stop_id ++ "_" ++ py_str route_id
            ++ "_" ++ py_str direction)%string.

(** [_async_cleanup_orphaned_entities]: [options] is [entry.options],
    [entries] the registry's entries of this config entry; the result lists
    the [entity_id]s passed to [entity_registry.async_remove], in call
    order. *)
Definition _async_cleanup_orphaned_entities (entry_id : string)
    (options : pydict) (entries : list RegistryEntry) : result (list string) :=
  current_stops <- py_iter (dict_get "stops" (PList []) options) ;;
  valid_unique_ids <- mapM (stop_unique_id entry_id) current_stops ;;
  Return (map entity_id
            (filter (fun entity_entry =>
                       negb (existsb (String.eqb (unique_id entity_entry))
                               valid_unique_ids))
                    entries)).

End Str.

End integration.

(* ================================================================= *)
(** ** Fixtures: the objects of the repository's tests *)

Module fixtures.

(** [str.lower] on ASCII text. *)
Definition lower_char (c : ascii) : ascii :=
  let n := nat_of_ascii c in
  if (Nat.leb 65 n && Nat.leb n 90)%bool then ascii_of_nat (n + 32) else c.

Fixpoint lower_ascii (s : string) : string :=
  match s with
  | EmptyString => EmptyString
  | String c s' => String (lower_char c) (lower_ascii s')
  end.

Definition at_ (h m : Z) : api.datetime :=
  {| api.year := 2026; api.month := 1; api.day := 17;
     api.hour := h; api.minute := m; api.second := 0; api.microsecond := 0;
     api.utcoffset := None |}.

Definition departure (headsign route_id : string) (trip : pydict) (mins : Z)
    : api.Departure :=
  {| api.stop_id := "TESTIUTERM";
     api.headsign := headsign;
     api.route := {| api.route_id := route_id; api.route_short_name := None |};
     api.trip := trip;
     api.expected := at_ 14 30;
     api.expected_mins := mins;
     api.scheduled := at_ 14 28;
     api.is_monitored := true |}.

Definition departure_east : api.Departure :=
  departure "5E Green" "5"
    [("trip_id", PStr "trip_123"); ("direction", PStr "Eastbound")]%string 5.

Definition departure_west : api.Departure :=
  departure "5W Teal" "5"
    [("trip_id", PStr "trip_456"); ("direction", PStr "Westbound")]%string 3.

Definition departure_upper : api.Departure :=
  departure "5E Green" "5"
    [("trip_id", PStr "trip_123"); ("direction", PStr "EASTBOUND")]%string 5.

Definition departure_no_direction : api.Departure :=
  departure "10 Illini" "10" [("trip_id", PStr "trip_456")]%string 7.

Definition departure_no_trip : api.Departure :=
  departure "10 Illini" "10" [] 7.

(** [AsyncMock] with [get_departures_by_stop.return_value] set. *)
Definition mock_returning (departures : list api.Departure)
    : coordinator.client_obj :=
  {| coordinator.get_departures_by_stop := fun _ _ _ =>
       Return {| api.time := at_ 14 25; api.departures := departures |} |}.

(** [AsyncMock] with [get_departures_by_stop.side_effect] set. *)
Definition mock_raising (e : exn) : coordinator.client_obj :=
  {| coordinator.get_departures_by_stop := fun _ _ _ => Raise e |}.

Definition coordinator_with (client : coordinator.client_obj)
    (direction_filter : option string) : coordinator.CUMTDBusCoordinator :=
  {| coordinator.client := client;
     coordinator.stop_id := "TESTIUTERM";
     coordinator.stop_name := "Test Illinois Terminal";
     coordinator.route_id := Some "5"%string;
     coordinator.direction_filter := direction_filter |}.

(** A server that answers every request with the same response, and a
    network on which every request fails. *)
Definition client_answering (r : api.Response) : api.CUMTDClient :=
  {| api.api_key := "test_key"; api._client := fun _ _ => api.GetReturns r |}.

Definition client_failing (e : httpx_error) : api.CUMTDClient :=
  {| api.api_key := "test_key"; api._client := fun _ _ => api.GetRaises e |}.

Definition status_body (code : Z) (msg : string) : pyval :=
  PDict [("status", PDict [("code", PInt code); ("msg", PStr msg)])]%string.

Definition time_only_body : pydict :=
  [("time", PStr "2026-01-17T14:25:00-06:00")]%string.

(** Stand-ins for pydantic in the runs below: any string is taken as the
    time [at_ 14 25], and no raw departure validates. *)
Definition validate_datetime (v : pyval) : option api.datetime :=
  match v with PStr _ => Some (at_ 14 25) | _ => None end.

Definition validate_Departure (kwargs : pydict) : option api.Departure := None.

(** A target on the real client, behind a network that times out. *)
Definition timeout_target : coordinator.CUMTDBusCoordinator :=
  coordinator_with
    (coordinator.of_CUMTDClient validate_datetime validate_Departure
       (client_failing TimeoutException))
    (Some "Eastbound"%string).

(** [Fresh] with the eastbound departure, and [Stale] with it. *)
Definition fresh_east : scheduler.RefreshState :=
  {| scheduler.last_data := Some departure_east; scheduler.last_success := true |}.

Definition stale_east : scheduler.RefreshState :=
  {| scheduler.last_data := Some departure_east; scheduler.last_success := false |}.

(** Stand-ins for pydantic and [str] in the runs on stops, routes and
    raw departures: fields are read strictly, times are not parsed. *)
Definition validate_Stop (kwargs : pydict) : option api.Stop :=
  match dict_lookup "stop_id" kwargs, dict_lookup "stop_name" kwargs with
  | Some (PStr i), Some (PStr n) =>
      Some {| api.Stop_stop_id := i; api.Stop_stop_name := n |}
  | _, _ => None
  end.

Definition validate_Route (kwargs : pydict) : option api.Route :=
  match dict_lookup "route_id" kwargs with
  | Some (PStr i) => Some {| api.route_id := i; api.route_short_name := None |}
  | _ => None
  end.

Definition validate_Departure_strict (kwargs : pydict) : option api.Departure :=
  match dict_lookup "headsign" kwargs, dict_lookup "trip" kwargs,
        dict_lookup "expected_mins" kwargs with
  | Some (PStr h), Some (PDict t), Some (PInt m) => Some (departure h "5" t m)
  | _, _, _ => None
  end.

Definition py_str_simple (v : pyval) : string :=
  match v with
  | PStr s => s
  | PNone => "None"
  | PBool true => "True"
  | PBool false => "False"
  | _ => "?"
  end.

Definition raw_stop (stop_id stop_name : string) : pyval :=
  PDict [("stop_id", PStr stop_id); ("stop_name", PStr stop_name)]%string.

Definition stops_body : pydict :=
  [("time", PStr "2026-01-17T14:25:00-06:00");
   ("stops", PList [raw_stop "IT" "Illinois Terminal";
                    raw_stop "SPFLDPINE" "Springfield & Pine";
                    raw_stop "ILLSPFLD" "Illinois & Springfield"])]%string.

Definition bad_stops_body : pydict :=
  [("time", PStr "2026-01-17T14:25:00-06:00");
   ("stops", PList [raw_stop "IT" "Illinois Terminal"; PInt 3])]%string.

Definition departures_body : pydict :=
  [("time", PStr "2026-01-17T14:25:00-06:00");
   ("departures",
    PList [PDict [("headsign", PStr "5E Green");
                  ("trip", PDict [("direction", PStr "Eastbound")]);
                  ("expected_mins", PInt 5)];
           PDict [("headsign", PStr "5W Teal");
                  ("trip", PDict [("direction", PStr "Westbound")]);
                  ("expected_mins", PInt 3)]])]%string.

Definition ok_client (body : pydict) : api.CUMTDClient :=
  client_answering {| api.status_code := 200; api.json := Some (PDict body) |}.

(** One configured stop without filters, as the options flow stores it, and
    the registry entry of its sensor. *)
Definition stop_iu : pydict :=
  [("stop_id", PStr "IU"); ("stop_name", PStr "Illini Union");
   ("route_id", PNone); ("direction_filter", PNone);
   ("custom_name", PNone)]%string.

Definition sensor_entry_iu : integration.RegistryEntry :=
  {| integration.entity_id := "sensor.illini_union_next_bus";
     integration.unique_id := "entry1_iu_all_all" |}.

Definition orphan_entry : integration.RegistryEntry :=
  {| integration.entity_id := "sensor.old_stop_next_bus";
     integration.unique_id := "entry1_OLD_all_all" |}.

Definition raw_entry_iu : integration.RegistryEntry :=
  {| integration.entity_id := "sensor.raw_iu";
     integration.unique_id := "entry1_IU_all_all" |}.

End fixtures.

(* ================================================================= *)
(** ** Notions used to state the properties *)

(** The departure's direction is present and equal to [f] up to case, case
    being compared as the code does it, through [lower]. *)
Definition direction_is (lower : string -> string) (f : string)
    (d : api.Departure) : Prop :=
  exists s, api.direction d = Return (PStr s) /\ lower s = lower f.

(** The data model's typing of [trip]: the direction, read through the
    accessor, is absent or a string. *)
Definition direction_typed (d : api.Departure) : Prop :=
  api.direction d = Return PNone \/ exists s, api.direction d = Return (PStr s).

(** [direction_is] as a test: the decision the comprehension takes on a
    departure of the data model. *)
Definition matchesb (lower : string -> string) (f : string)
    (d : api.Departure) : bool :=
  match dict_get "direction" PNone (api.trip d) with
  | PStr s => String.eqb (lower f) (lower s)
  | _ => false
  end.

(** The query parameters a request is sent with: [params] and the key. *)
Definition sent_params (c : api.CUMTDClient) (params : pydict) : pydict :=
  dict_set "key" (PStr (api.api_key c)) params.

(** The call one refresh makes on its client. *)
Definition fetch (self : coordinator.CUMTDBusCoordinator)
    : result api.DeparturesResponse :=
  coordinator.get_departures_by_stop (coordinator.client self)
    (coordinator.stop_id self) (coordinator.route_id self) (Some 5).

(** The same target with another direction filter. *)
Definition with_direction_filter (self : coordinator.CUMTDBusCoordinator)
    (direction_filter : option string) : coordinator.CUMTDBusCoordinator :=
  {| coordinator.client := coordinator.client self;
     coordinator.stop_id := coordinator.stop_id self;
     coordinator.stop_name := coordinator.stop_name self;
     coordinator.route_id := coordinator.route_id self;
     coordinator.direction_filter := direction_filter |}.

(** A transport failure handled the way a [CUMTDAPIError] [e] is: the refresh
    body turns it into [UpdateFailed], and the tick keeps [last_data] and
    clears [last_success]. *)
Definition handled_like_api_error (lower : string -> string)
    (self : coordinator.CUMTDBusCoordinator) (st : scheduler.RefreshState)
    (e : exn) : Prop :=
  coordinator._async_update_data lower self = Raise (UpdateFailed e) /\
  scheduler.tick lower self st =
    {| scheduler.last_data := scheduler.last_data st;
       scheduler.last_success := false |}.

(** The client [async_step_user] builds for the key the user entered, and
    the entry it creates when the key is accepted. *)
Definition flow_client (network : string -> pydict -> api.get_outcome)
    (api_key : string) : api.CUMTDClient :=
  {| api.api_key := api_key; api._client := network |}.

Definition entry_created (api_key : string) : config_flow.flow_result :=
  config_flow.create_entry "CUMTD Bus" [("api_key", PStr api_key)]%string
    (Some [("stops", PList [])]%string).

(** What the sensor does to a stop id before it goes into the unique id. *)
Definition safe_stop (lower : string -> string) (stop_id : string) : string :=
  lower (sensor.str_replace " " "_" (sensor.str_replace ":" "_" stop_id)).

(** Every way [_request] ends, read off its body. *)
Inductive request_outcome (c : api.CUMTDClient) (method : string)
    (params : pydict) : result pyval -> Prop :=
  | transport_failed h :
      api._client c (api.request_url method) (sent_params c params)
        = api.GetRaises h ->
      request_outcome c method params (Raise (HTTPXError h))
  | unauthorized r :
      api._client c (api.request_url method) (sent_params c params)
        = api.GetReturns r ->
      api.status_code r = 401 ->
      request_outcome c method params
        (Raise (AuthenticationError [Lit "Invalid API key"]))
  | body_not_json r :
      api._client c (api.request_url method) (sent_params c params)
        = api.GetReturns r ->
      api.status_code r <> 401 -> api.json r = None ->
      request_outcome c method params (Raise JSONDecodeError)
  | body_malformed r data e :
      api._client c (api.request_url method) (sent_params c params)
        = api.GetReturns r ->
      api.status_code r <> 401 -> api.json r = Some data ->
      e = TypeError \/ (exists k, e = KeyError k) ->
      request_outcome c method params (Raise e)
  | in_band_error r data status code msg :
      api._client c (api.request_url method) (sent_params c params)
        = api.GetReturns r ->
      api.status_code r <> 401 -> api.json r = Some data ->
      py_contains "status" data = Return true ->
      py_getitem data "status" = Return status ->
      py_getitem status "code" = Return code ->
      py_ne_int code 200 = true ->
      py_getitem status "msg" = Return msg ->
      request_outcome c method params
        (Raise (CUMTDAPIError [Lit "API error "; Interp code;
                               Lit ": "; Interp msg]))
  | status_ok r data status code :
      api._client c (api.request_url method) (sent_params c params)
        = api.GetReturns r ->
      api.status_code r <> 401 -> api.json r = Some data ->
      py_contains "status" data = Return true ->
      py_getitem data "status" = Return status ->
      py_getitem status "code" = Return code ->
      py_ne_int code 200 = false ->
      request_outcome c method params (Return data)
  | no_status r data :
      api._client c (api.request_url method) (sent_params c params)
        = api.GetReturns r ->
      api.status_code r <> 401 -> api.json r = Some data ->
      py_contains "status" data = Return false ->
      request_outcome c method params (Return data).

(* ================================================================= *)
(** ** The accessors of [Departure] *)

Lemma trip_get_dict (trip : pydict) (key : string) :
  api.trip_get (PDict trip) key = Return (dict_get key PNone trip).
Proof.
  unfold api.trip_get. destruct trip as [|kv rest]; reflexivity.
Qed.

Lemma direction_value (d : api.Departure) :
  api.direction d = Return (dict_get "direction" PNone (api.trip d)).
Proof. apply trip_get_dict. Qed.

(** C9: reading [direction] and [trip_id] of any [Departure] returns a
    value, it never raises; the value is [None] when the trip mapping is
    empty or lacks the key, and the accessor's expression gives [None] as
    well when the mapping itself is missing ([None]). *)
Theorem C9_accessors_never_fail (d : api.Departure) :
  (exists v, api.direction d = Return v) /\
  (exists v, api.trip_id d = Return v) /\
  (dict_lookup "direction" (api.trip d) = None -> api.direction d = Return PNone) /\
  (dict_lookup "trip_id" (api.trip d) = None -> api.trip_id d = Return PNone) /\
  (api.trip d = [] ->
     api.direction d = Return PNone /\ api.trip_id d = Return PNone) /\
  (forall key, api.trip_get PNone key = Return PNone).
Proof.
  unfold api.direction, api.trip_id.
  repeat split; try (eexists; apply trip_get_dict).
  - intro H. rewrite trip_get_dict. unfold dict_get. now rewrite H.
  - intro H. rewrite trip_get_dict. unfold dict_get. now rewrite H.
  - now rewrite H.
  - now rewrite H.
Qed.

(* ================================================================= *)
(** ** The selection of one refresh *)

Section Selection.

Variable lower : string -> string.

Lemma matchesb_spec (f : string) (d : api.Departure) :
  matchesb lower f d = true <-> direction_is lower f d.
Proof.
  unfold matchesb, direction_is. rewrite direction_value.
  destruct (dict_get "direction" PNone (api.trip d)) as [| | |s| |];
    try (split; [discriminate | intros [s' [H _]]; discriminate]).
  rewrite String.eqb_eq. split.
  - intro H. exists s. split; [reflexivity | congruence].
  - intros [s' [H1 H2]]. injection H1 as ->. congruence.
Qed.

Lemma matchesb_false (f : string) (d : api.Departure) :
  matchesb lower f d = false <-> ~ direction_is lower f d.
Proof.
  rewrite <- matchesb_spec. destruct (matchesb lower f d); split; congruence.
Qed.

(** First match of a decidable test: either the list splits at it, or
    nothing passes. *)
Lemma hd_error_filter {A : Type} (p : A -> bool) (l : list A) :
  (exists before x after,
      l = before ++ x :: after /\
      Forall (fun y => p y = false) before /\ p x = true /\
      hd_error (filter p l) = Some x) \/
  (Forall (fun y => p y = false) l /\ hd_error (filter p l) = None).
Proof.
  induction l as [|a l IH]; simpl.
  - right. split; constructor.
  - destruct (p a) eqn:Ha.
    + left. exists [], a, l. repeat split; auto.
    + destruct IH as [(before & x & after & -> & Hb & Hx & Hhd) | [Hall Hhd]].
      * left. exists (a :: before), x, after. repeat split; auto.
      * right. split; auto.
Qed.

(** What the refresh returns once the fetch has returned. *)
Lemma update_data_unfiltered (self : coordinator.CUMTDBusCoordinator)
    (resp : api.DeparturesResponse) :
  fetch self = Return resp ->
  coordinator.filter_is_set (coordinator.direction_filter self) = None ->
  coordinator._async_update_data lower self =
    Return (hd_error (api.departures resp)).
Proof.
  unfold fetch, coordinator._async_update_data. intros -> ->. simpl.
  destruct (api.departures resp); reflexivity.
Qed.

Lemma update_data_filtered (self : coordinator.CUMTDBusCoordinator)
    (resp : api.DeparturesResponse) (f : string) (kept : list api.Departure) :
  fetch self = Return resp ->
  coordinator.filter_is_set (coordinator.direction_filter self) = Some f ->
  coordinator.filter_departures lower f (api.departures resp) = Return kept ->
  coordinator._async_update_data lower self = Return (hd_error kept).
Proof.
  unfold fetch, coordinator._async_update_data. intros -> -> Hk. simpl.
  destruct (api.departures resp) as [|d rest].
  - simpl in Hk. injection Hk as <-. reflexivity.
  - rewrite Hk. simpl. destruct kept; reflexivity.
Qed.

Lemma filter_is_set_some (f : string) :
  f <> EmptyString -> coordinator.filter_is_set (Some f) = Some f.
Proof.
  intro H. unfold coordinator.filter_is_set.
  destruct (String.eqb_spec f EmptyString); [contradiction | reflexivity].
Qed.

Section FilterSet.

(** Python's [str.lower] maps the empty string, and only it, to the empty
    string. *)
Hypothesis lower_empty : forall s, lower s = EmptyString <-> s = EmptyString.

Lemma direction_matches_typed (f : string) (d : api.Departure) :
  f <> EmptyString -> direction_typed d ->
  coordinator.direction_matches lower f d = Return (matchesb lower f d).
Proof.
  intros Hf Ht. unfold coordinator.direction_matches, matchesb, direction_typed in *.
  rewrite direction_value in *.
  destruct Ht as [Ht | [s Ht]]; injection Ht as ->; simpl; [reflexivity|].
  destruct (String.eqb_spec s EmptyString) as [-> | Hs]; simpl; [|reflexivity].
  f_equal. symmetry. apply String.eqb_neq. intro H.
  apply Hf, lower_empty. rewrite H. now apply lower_empty.
Qed.

Lemma filter_departures_typed (f : string) (D : list api.Departure) :
  f <> EmptyString -> Forall direction_typed D ->
  coordinator.filter_departures lower f D = Return (filter (matchesb lower f) D).
Proof.
  intros Hf HD. induction HD as [|d D Hd _ IH]; simpl; [reflexivity|].
  rewrite (direction_matches_typed f d Hf Hd), IH. simpl.
  destruct (matchesb lower f d); reflexivity.
Qed.

(** C1: with a set (non-empty) direction filter [f], the refresh returns the
    first departure of the response, in response order, whose direction is
    present and equal to [f] up to case; when no departure has such a
    direction the result is absent.  The departures are those of the data
    model: a direction is a string or absent. *)
Theorem C1_direction_filter_selects_first_match
    (self : coordinator.CUMTDBusCoordinator) (resp : api.DeparturesResponse)
    (f : string) :
  fetch self = Return resp ->
  coordinator.direction_filter self = Some f ->
  f <> EmptyString ->
  Forall direction_typed (api.departures resp) ->
  (exists before d after,
      api.departures resp = before ++ d :: after /\
      Forall (fun x => ~ direction_is lower f x) before /\
      direction_is lower f d /\
      coordinator._async_update_data lower self = Return (Some d)) \/
  (Forall (fun x => ~ direction_is lower f x) (api.departures resp) /\
   coordinator._async_update_data lower self = Return None).
Proof.
  intros Hfetch Hfilter Hf Htyped.
  assert (Hrun : coordinator._async_update_data lower self =
                 Return (hd_error (filter (matchesb lower f) (api.departures resp)))).
  { apply (update_data_filtered self resp f); auto.
    - rewrite Hfilter. now apply filter_is_set_some.
    - now apply filter_departures_typed. }
  rewrite Hrun.
  destruct (hd_error_filter (matchesb lower f) (api.departures resp))
    as [(before & d & after & Heq & Hb & Hd & Hhd) | [Hall Hhd]].
  - left. exists before, d, after. repeat split; auto.
    + eapply Forall_impl; [|exact Hb]. intros x Hx. now apply matchesb_false.
    + now apply matchesb_spec.
    + now rewrite Hhd.
  - right. split.
    + eapply Forall_impl; [|exact Hall]. intros x Hx. now apply matchesb_false.
    + now rewrite Hhd.
Qed.

End FilterSet.

Lemma update_data_of_empty (self : coordinator.CUMTDBusCoordinator)
    (resp : api.DeparturesResponse) :
  fetch self = Return resp ->
  api.departures resp = [] ->
  coordinator._async_update_data lower self = Return None.
Proof.
  unfold fetch, coordinator._async_update_data. intros -> He. simpl.
  now rewrite He.
Qed.

(** C2: from an empty departure list the refresh returns absent, whatever
    the direction filter; from a non-empty list with no direction filter it
    returns the first element. *)
Theorem C2_empty_list_and_no_filter
    (self : coordinator.CUMTDBusCoordinator) (resp : api.DeparturesResponse) :
  fetch self = Return resp ->
  (api.departures resp = [] ->
     coordinator._async_update_data lower self = Return None) /\
  (forall d rest,
     api.departures resp = d :: rest ->
     coordinator.direction_filter self = None ->
     coordinator._async_update_data lower self = Return (Some d)).
Proof.
  intro Hfetch. split.
  - now apply update_data_of_empty.
  - intros d rest Hd Hnone.
    rewrite (update_data_unfiltered self resp Hfetch).
    + now rewrite Hd.
    + now rewrite Hnone.
Qed.

(** C10: on a non-empty departure list, the empty string as direction filter
    selects the first element, exactly as no filter does. *)
Theorem C10_empty_string_filter_is_unset
    (self : coordinator.CUMTDBusCoordinator) (resp : api.DeparturesResponse)
    (d : api.Departure) (rest : list api.Departure) :
  fetch self = Return resp ->
  api.departures resp = d :: rest ->
  coordinator.direction_filter self = Some EmptyString ->
  coordinator._async_update_data lower self = Return (Some d) /\
  coordinator._async_update_data lower (with_direction_filter self None) =
    coordinator._async_update_data lower self.
Proof.
  intros Hfetch Hd Hf.
  assert (H1 : coordinator._async_update_data lower self = Return (Some d)).
  { rewrite (update_data_unfiltered self resp Hfetch).
    - now rewrite Hd.
    - now rewrite Hf. }
  split; [exact H1|]. rewrite H1.
  rewrite (update_data_unfiltered (with_direction_filter self None) resp).
  - now rewrite Hd.
  - exact Hfetch.
  - reflexivity.
Qed.

End Selection.

(* ================================================================= *)
(** ** The refresh cycle: failure and success *)

Section Refresh.

Variable lower : string -> string.

Lemma tick_of_return (self : coordinator.CUMTDBusCoordinator)
    (st : scheduler.RefreshState) (r : option api.Departure) :
  coordinator._async_update_data lower self = Return r ->
  scheduler.tick lower self st =
    {| scheduler.last_data := r; scheduler.last_success := true |}.
Proof. unfold scheduler.tick. now intros ->. Qed.

Lemma tick_of_raise (self : coordinator.CUMTDBusCoordinator)
    (st : scheduler.RefreshState) (e : exn) :
  coordinator._async_update_data lower self = Raise e ->
  scheduler.tick lower self st =
    {| scheduler.last_data := scheduler.last_data st;
       scheduler.last_success := false |}.
Proof. unfold scheduler.tick. now intros ->. Qed.

(** An exception of the fetch leaves the refresh body as [UpdateFailed] when
    it is a [CUMTDAPIError], and as itself otherwise. *)
Lemma update_data_of_raise (self : coordinator.CUMTDBusCoordinator) (e : exn) :
  fetch self = Raise e ->
  coordinator._async_update_data lower self =
    Raise (if is_CUMTDAPIError e then UpdateFailed e else e).
Proof.
  unfold fetch, coordinator._async_update_data. intros ->. simpl.
  destruct (is_CUMTDAPIError e); reflexivity.
Qed.

(** C3: when the fetch of a tick raises an API-level error ([CUMTDAPIError],
    or its subclass [AuthenticationError]), the refresh body raises
    [UpdateFailed] from it and the tick keeps [last_data] as it was and sets
    [last_success] to false. *)
Theorem C3_api_error_keeps_last_data
    (self : coordinator.CUMTDBusCoordinator) (st : scheduler.RefreshState)
    (e : exn) :
  fetch self = Raise e ->
  is_CUMTDAPIError e = true ->
  coordinator._async_update_data lower self = Raise (UpdateFailed e) /\
  scheduler.tick lower self st =
    {| scheduler.last_data := scheduler.last_data st;
       scheduler.last_success := false |}.
Proof.
  intros Hfetch Hapi.
  assert (H : coordinator._async_update_data lower self = Raise (UpdateFailed e)).
  { rewrite (update_data_of_raise self e Hfetch). now rewrite Hapi. }
  split; [exact H | exact (tick_of_raise self st _ H)].
Qed.

Section FilterSet.

Hypothesis lower_empty : forall s, lower s = EmptyString <-> s = EmptyString.

(** C4: a tick whose refresh body returns replaces [last_data] with the
    returned selection and sets [last_success], whatever the state was; and
    a fetch that succeeds with no departure, or with none that matches the
    set direction filter, is such a tick: it ends with [last_data] absent
    and [last_success] true. *)
Theorem C4_success_overwrites_last_data
    (self : coordinator.CUMTDBusCoordinator) (st : scheduler.RefreshState) :
  (forall r,
     coordinator._async_update_data lower self = Return r ->
     scheduler.tick lower self st =
       {| scheduler.last_data := r; scheduler.last_success := true |}) /\
  (forall resp,
     fetch self = Return resp ->
     (api.departures resp = [] \/
      exists f,
        coordinator.direction_filter self = Some f /\ f <> EmptyString /\
        Forall direction_typed (api.departures resp) /\
        Forall (fun x => ~ direction_is lower f x) (api.departures resp)) ->
     scheduler.tick lower self st =
       {| scheduler.last_data := None; scheduler.last_success := true |}).
Proof.
  split.
  - intros r. apply tick_of_return.
  - intros resp Hfetch Hnone. apply tick_of_return.
    destruct Hnone as [Hempty | (f & Hf & Hne & Htyped & Hno)].
    + now apply (update_data_of_empty lower self resp).
    + rewrite (update_data_filtered lower self resp f
                 (filter (matchesb lower f) (api.departures resp))); auto.
      * clear Hfetch Htyped. induction Hno as [|d D Hd _ IH]; simpl; [reflexivity|].
        apply (matchesb_false lower) in Hd. now rewrite Hd.
      * rewrite Hf. now apply filter_is_set_some.
      * now apply filter_departures_typed.
Qed.

End FilterSet.

(** C7 (amended): when the network call of a tick fails at the transport
    level, the httpx exception passes [_request], [get_departures_by_stop]
    and the [except CUMTDAPIError] clause of the refresh body unchanged; it
    is not turned into [UpdateFailed] as a [CUMTDAPIError] is.  The tick
    still keeps [last_data] and sets [last_success] to false, as for every
    exception a tick raises. *)
Theorem C7_transport_failure_propagates_unclassified
    (validate_datetime : pyval -> option api.datetime)
    (validate_Departure : pydict -> option api.Departure)
    (c : api.CUMTDClient) (self : coordinator.CUMTDBusCoordinator)
    (st : scheduler.RefreshState) (h : httpx_error) :
  coordinator.client self =
    coordinator.of_CUMTDClient validate_datetime validate_Departure c ->
  api._client c (api.request_url "getdeparturesbystop")
    (sent_params c
       (api.departures_params (coordinator.stop_id self)
          (coordinator.route_id self) (Some 5))) = api.GetRaises h ->
  fetch self = Raise (HTTPXError h) /\
  coordinator._async_update_data lower self = Raise (HTTPXError h) /\
  ~ (exists e, handled_like_api_error lower self st e) /\
  scheduler.tick lower self st =
    {| scheduler.last_data := scheduler.last_data st;
       scheduler.last_success := false |}.
Proof.
  intros Hclient Hget.
  assert (Hfetch : fetch self = Raise (HTTPXError h)).
  { unfold fetch. rewrite Hclient. simpl.
    unfold api.get_departures_by_stop, api._request.
    unfold sent_params in Hget. now rewrite Hget. }
  assert (Hrun : coordinator._async_update_data lower self = Raise (HTTPXError h)).
  { now rewrite (update_data_of_raise self _ Hfetch). }
  repeat split; auto.
  - intros [e [He _]]. rewrite Hrun in He. discriminate.
  - exact (tick_of_raise self st _ Hrun).
Qed.

End Refresh.

(* ================================================================= *)
(** ** The client: error classification *)

Lemma py_getitem_raises (v : pyval) (k : string) (e : exn) :
  py_getitem v k = Raise e -> is_CUMTDAPIError e = false.
Proof.
  destruct v; simpl; try (intro H; injection H as <-; reflexivity).
  destruct (dict_lookup k items); [discriminate|].
  intro H; injection H as <-; reflexivity.
Qed.

Lemma py_contains_raises (k : string) (v : pyval) (e : exn) :
  py_contains k v = Raise e -> is_CUMTDAPIError e = false.
Proof.
  destruct v; simpl; try discriminate; intro H; injection H as <-; reflexivity.
Qed.

(** The part of [_request] that reads the parsed body. *)
Lemma request_of_response (c : api.CUMTDClient) (method : string)
    (params : pydict) (r : api.Response) :
  api._client c (api.request_url method) (sent_params c params) = api.GetReturns r ->
  api._request c method params =
    if api.status_code r =? 401 then
      Raise (AuthenticationError [Lit "Invalid API key"])
    else
      match api.json r with
      | None => Raise JSONDecodeError
      | Some data =>
          has_status <- py_contains "status" data ;;
          if has_status then
            status <- py_getitem data "status" ;;
            code <- py_getitem status "code" ;;
            if py_ne_int code 200 then
              msg <- py_getitem status "msg" ;;
              Raise (CUMTDAPIError
                       [Lit "API error "; Interp code; Lit ": "; Interp msg])
            else Return data
          else Return data
      end.
Proof. unfold api._request, sent_params. now intros ->. Qed.

(** [_request] raises [AuthenticationError] on HTTP status 401 and on
    nothing else. *)
Lemma request_auth_iff (c : api.CUMTDClient) (method : string) (params : pydict) :
  (exists e, api._request c method params = Raise e /\
             is_AuthenticationError e = true) <->
  (exists r, api._client c (api.request_url method) (sent_params c params)
               = api.GetReturns r /\ api.status_code r = 401).
Proof.
  split.
  - intros [e [Hreq Hauth]].
    destruct (api._client c (api.request_url method) (sent_params c params))
      as [h | r] eqn:Hget.
    + unfold api._request, sent_params in *. rewrite Hget in Hreq.
      injection Hreq as <-. discriminate.
    + exists r. split; [reflexivity|].
      rewrite (request_of_response c method params r Hget) in Hreq.
      destruct (Z.eqb_spec (api.status_code r) 401) as [H401 | _]; [exact H401|].
      exfalso.
      destruct (api.json r) as [data|]; [|injection Hreq as <-; discriminate].
      destruct (py_contains "status" data) as [[|]|e0] eqn:Hc; simpl in Hreq;
        [ | discriminate | injection Hreq as <-;
                           destruct data; simpl in Hc; try discriminate;
                           injection Hc as <-; discriminate ].
      destruct (py_getitem data "status") as [status|e1] eqn:Hs; simpl in Hreq;
        [ | injection Hreq as <-; apply py_getitem_raises in Hs;
            destruct e1; discriminate ].
      destruct (py_getitem status "code") as [code|e2] eqn:Hcode; simpl in Hreq;
        [ | injection Hreq as <-; apply py_getitem_raises in Hcode;
            destruct e2; discriminate ].
      destruct (py_ne_int code 200); [|discriminate].
      destruct (py_getitem status "msg") as [msg|e3] eqn:Hmsg; simpl in Hreq;
        injection Hreq as <-; [discriminate|].
      apply py_getitem_raises in Hmsg. destruct e3; discriminate.
  - intros [r [Hget H401]]. eexists. split.
    + rewrite (request_of_response c method params r Hget).
      rewrite H401. reflexivity.
    + reflexivity.
Qed.

(** C5: [validate_api_key] re-raises the probe's [AuthenticationError] and
    raises one only then, which is exactly when the probe's HTTP status is
    401; on every other [CUMTDAPIError] of the probe it returns [True]. *)
Theorem C5_validate_api_key_tolerates_other_api_errors (c : api.CUMTDClient) :
  (forall e,
     is_AuthenticationError e = true ->
     (api.validate_api_key c = Raise e <-> api._request c "getstops" [] = Raise e)) /\
  ((exists e, api.validate_api_key c = Raise e /\ is_AuthenticationError e = true) <->
   (exists r, api._client c (api.request_url "getstops") (sent_params c [])
                = api.GetReturns r /\ api.status_code r = 401)) /\
  (forall e,
     api._request c "getstops" [] = Raise e ->
     is_CUMTDAPIError e = true ->
     is_AuthenticationError e = false ->
     api.validate_api_key c = Return true).
Proof.
  assert (Hiff : forall e, is_AuthenticationError e = true ->
            (api.validate_api_key c = Raise e <->
             api._request c "getstops" [] = Raise e)).
  { intros e He. unfold api.validate_api_key.
    destruct (api._request c "getstops" []) as [data | e'].
    - split; discriminate.
    - split.
      + destruct (is_AuthenticationError e') eqn:H1;
          [intro H; injection H as ->; reflexivity|].
        destruct (is_CUMTDAPIError e'); [intro H; discriminate H|].
        intro H; injection H as ->. congruence.
      + intro H; injection H as ->. now rewrite He. }
  split; [exact Hiff|]. split.
  - rewrite <- request_auth_iff. split; intros [e [H1 H2]]; exists e; split; auto;
      now apply (Hiff e H2).
  - intros e Hreq Hapi Hauth. unfold api.validate_api_key.
    now rewrite Hreq, Hauth, Hapi.
Qed.

(** C6: for a call that got an HTTP response: status 401 raises
    [AuthenticationError] whatever the body is, parsable or not; otherwise,
    for a body that parses to an object, a status object
    [{code: integer, msg: string}] with a code other than 200 raises
    [CUMTDAPIError] carrying that code and message, and a body whose status
    code is 200, or that has no status object, is returned. *)
Theorem C6_request_error_classification
    (c : api.CUMTDClient) (method : string) (params : pydict) (r : api.Response) :
  api._client c (api.request_url method) (sent_params c params) = api.GetReturns r ->
  (api.status_code r = 401 ->
     api._request c method params =
       Raise (AuthenticationError [Lit "Invalid API key"])) /\
  (api.status_code r <> 401 ->
   forall data, api.json r = Some (PDict data) ->
     (forall status code msg,
        dict_lookup "status" data = Some (PDict status) ->
        dict_lookup "code" status = Some (PInt code) ->
        dict_lookup "msg" status = Some (PStr msg) ->
        code <> 200 ->
        api._request c method params =
          Raise (CUMTDAPIError [Lit "API error "; Interp (PInt code);
                                Lit ": "; Interp (PStr msg)])) /\
     (forall status,
        dict_lookup "status" data = Some (PDict status) ->
        dict_lookup "code" status = Some (PInt 200) ->
        api._request c method params = Return (PDict data)) /\
     (dict_lookup "status" data = None ->
        api._request c method params = Return (PDict data))).
Proof.
  intro Hget. rewrite (request_of_response c method params r Hget). split.
  - intros ->. reflexivity.
  - intros Hne data Hjson.
    destruct (Z.eqb_spec (api.status_code r) 401) as [|_]; [contradiction|].
    rewrite Hjson. simpl. unfold dict_has. repeat split.
    + intros status code msg Hs Hc Hm Hcode. rewrite Hs. simpl.
      rewrite Hc. simpl. destruct (Z.eqb_spec code 200); [contradiction|].
      simpl. now rewrite Hm.
    + intros status Hs Hc. rewrite Hs. simpl. now rewrite Hc.
    + now intros ->.
Qed.

(** C8: when the request succeeds with a body that has no [departures] key
    (and has the required [time]), [get_departures_by_stop] returns a
    [DeparturesResponse] whose list of departures is empty. *)
Theorem C8_missing_departures_key_is_empty_list
    (validate_datetime : pyval -> option api.datetime)
    (validate_Departure : pydict -> option api.Departure)
    (c : api.CUMTDClient) (stop_id : string) (route_id : option string)
    (count : option Z) (data : pydict) (raw_time : pyval) (t : api.datetime) :
  api._request c "getdeparturesbystop"
    (api.departures_params stop_id route_id count) = Return (PDict data) ->
  dict_lookup "departures" data = None ->
  dict_lookup "time" data = Some raw_time ->
  validate_datetime raw_time = Some t ->
  api.get_departures_by_stop validate_datetime validate_Departure
    c stop_id route_id count =
    Return {| api.time := t; api.departures := [] |}.
Proof.
  intros Hreq Hdep Htime Hvalid. unfold api.get_departures_by_stop.
  rewrite Hreq. simpl. rewrite Htime. simpl.
  unfold dict_get. rewrite Hdep. simpl.
  unfold api.DeparturesResponse_init. now rewrite Hvalid.
Qed.

(* ================================================================= *)
(** ** Runs on the fixtures *)

Import fixtures.

Lemma lower_ascii_empty (s : string) :
  lower_ascii s = EmptyString <-> s = EmptyString.
Proof. destruct s; simpl; split; congruence. Qed.

(** The direction of a concrete departure is read off by running the
    accessor. *)
Ltac typed_by_run :=
  simpl;
  repeat (apply Forall_cons;
          [first [left; reflexivity | right; eexists; reflexivity]|]);
  apply Forall_nil.

(** The scenario of the spec: eastbound in 5 minutes listed before westbound
    in 3; the filter picks the eastbound one. *)
Example run_eastbound_before_westbound :
  coordinator._async_update_data lower_ascii
    (coordinator_with (mock_returning [departure_east; departure_west])
       (Some "Eastbound"%string))
  = Return (Some departure_east).
Proof. reflexivity. Qed.

Example run_case_insensitive :
  coordinator._async_update_data lower_ascii
    (coordinator_with (mock_returning [departure_upper]) (Some "eastbound"%string))
  = Return (Some departure_upper).
Proof. reflexivity. Qed.

Example run_direction_missing_is_skipped :
  coordinator._async_update_data lower_ascii
    (coordinator_with (mock_returning [departure_no_direction; departure_east])
       (Some "Eastbound"%string))
  = Return (Some departure_east).
Proof. reflexivity. Qed.

Example run_no_trip_never_matches :
  coordinator._async_update_data lower_ascii
    (coordinator_with (mock_returning [departure_no_trip]) (Some "Eastbound"%string))
  = Return None.
Proof. reflexivity. Qed.

Example run_direction_not_a_string :
  coordinator._async_update_data lower_ascii
    (coordinator_with
       (mock_returning [departure "5E Green" "5" [("direction", PInt 5)]%string 5])
       (Some "Eastbound"%string))
  = Raise AttributeError.
Proof. reflexivity. Qed.

Example run_api_error :
  coordinator._async_update_data lower_ascii
    (coordinator_with (mock_raising (CUMTDAPIError [Lit "Connection failed"])) None)
  = Raise (UpdateFailed (CUMTDAPIError [Lit "Connection failed"])).
Proof. reflexivity. Qed.

Example run_update_failed_message :
  exn_message (UpdateFailed (CUMTDAPIError [Lit "Connection failed"]))
  = [Lit "Error fetching bus data: "; Lit "Connection failed"].
Proof. reflexivity. Qed.

Example run_validate_unauthorized :
  api.validate_api_key
    (client_answering {| api.status_code := 401; api.json := None |})
  = Raise (AuthenticationError [Lit "Invalid API key"]).
Proof. reflexivity. Qed.

Example run_validate_server_fault :
  api.validate_api_key
    (client_answering {| api.status_code := 200;
                         api.json := Some (status_body 500 "Internal error") |})
  = Return true.
Proof. reflexivity. Qed.

Example run_validate_network_down :
  api.validate_api_key (client_failing NetworkError)
  = Raise (HTTPXError NetworkError).
Proof. reflexivity. Qed.

Example run_status_without_msg :
  api._request
    (client_answering {| api.status_code := 200;
                         api.json := Some (PDict [("status", PDict [("code", PInt 500)])]%string) |})
    "getstops" []
  = Raise (KeyError "msg").
Proof. reflexivity. Qed.

Example run_accessors_without_trip :
  api.direction departure_no_trip = Return PNone /\
  api.trip_id departure_no_trip = Return PNone /\
  api.direction departure_no_direction = Return PNone /\
  api.trip_id departure_no_direction = Return (PStr "trip_456").
Proof. repeat split. Qed.

(** *** Instances of the theorems above *)

Lemma C1_witness_eastbound_first :
  (exists before d after,
      [departure_east; departure_west] = before ++ d :: after /\
      Forall (fun x => ~ direction_is lower_ascii "Eastbound" x) before /\
      direction_is lower_ascii "Eastbound" d /\
      coordinator._async_update_data lower_ascii
        (coordinator_with (mock_returning [departure_east; departure_west])
           (Some "Eastbound"%string)) = Return (Some d)) \/
  (Forall (fun x => ~ direction_is lower_ascii "Eastbound" x)
     [departure_east; departure_west] /\
   coordinator._async_update_data lower_ascii
     (coordinator_with (mock_returning [departure_east; departure_west])
        (Some "Eastbound"%string)) = Return None).
Proof.
  apply (C1_direction_filter_selects_first_match lower_ascii lower_ascii_empty
           (coordinator_with (mock_returning [departure_east; departure_west])
              (Some "Eastbound"%string))
           {| api.time := at_ 14 25;
              api.departures := [departure_east; departure_west] |}
           "Eastbound").
  - reflexivity.
  - reflexivity.
  - discriminate.
  - typed_by_run.
Defined.

Lemma C2_witness_empty_and_first :
  coordinator._async_update_data lower_ascii
    (coordinator_with (mock_returning []) (Some "Eastbound"%string)) = Return None /\
  coordinator._async_update_data lower_ascii
    (coordinator_with (mock_returning [departure_west; departure_east]) None)
  = Return (Some departure_west).
Proof.
  split.
  - apply (proj1 (C2_empty_list_and_no_filter lower_ascii
                    (coordinator_with (mock_returning []) (Some "Eastbound"%string))
                    {| api.time := at_ 14 25; api.departures := [] |} eq_refl)).
    reflexivity.
  - apply (proj2 (C2_empty_list_and_no_filter lower_ascii
                    (coordinator_with (mock_returning [departure_west; departure_east]) None)
                    {| api.time := at_ 14 25;
                       api.departures := [departure_west; departure_east] |} eq_refl)
                 departure_west [departure_east]);
      reflexivity.
Defined.

Lemma C3_witness_fresh_then_api_error :
  coordinator._async_update_data lower_ascii
    (coordinator_with (mock_raising (CUMTDAPIError [Lit "Connection failed"])) None)
  = Raise (UpdateFailed (CUMTDAPIError [Lit "Connection failed"])) /\
  scheduler.tick lower_ascii
    (coordinator_with (mock_raising (CUMTDAPIError [Lit "Connection failed"])) None)
    fresh_east
  = {| scheduler.last_data := Some departure_east; scheduler.last_success := false |}.
Proof.
  apply (C3_api_error_keeps_last_data lower_ascii
           (coordinator_with (mock_raising (CUMTDAPIError [Lit "Connection failed"])) None)
           fresh_east (CUMTDAPIError [Lit "Connection failed"]));
    reflexivity.
Defined.

Lemma C4_witness_stale_then_no_match :
  scheduler.tick lower_ascii
    (coordinator_with (mock_returning [departure_west]) (Some "Eastbound"%string))
    stale_east
  = {| scheduler.last_data := None; scheduler.last_success := true |}.
Proof.
  apply (proj2 (C4_success_overwrites_last_data lower_ascii lower_ascii_empty
                  (coordinator_with (mock_returning [departure_west])
                     (Some "Eastbound"%string))
                  stale_east)
               {| api.time := at_ 14 25; api.departures := [departure_west] |}).
  - reflexivity.
  - right. exists "Eastbound"%string. repeat split.
    + discriminate.
    + typed_by_run.
    + apply Forall_cons; [|apply Forall_nil]. apply matchesb_false. reflexivity.
Defined.

Lemma C6_witness_in_band_error :
  api._request
    (client_answering {| api.status_code := 200;
                         api.json := Some (status_body 500 "Internal error") |})
    "getdeparturesbystop" (api.departures_params "IU" None (Some 5))
  = Raise (CUMTDAPIError [Lit "API error "; Interp (PInt 500);
                          Lit ": "; Interp (PStr "Internal error")]).
Proof.
  refine (proj1 (proj2 (C6_request_error_classification
            (client_answering {| api.status_code := 200;
                                 api.json := Some (status_body 500 "Internal error") |})
            "getdeparturesbystop" (api.departures_params "IU" None (Some 5))
            {| api.status_code := 200;
               api.json := Some (status_body 500 "Internal error") |}
            eq_refl) _ _ eq_refl) _ 500 "Internal error"%string eq_refl eq_refl eq_refl _);
    simpl; lia.
Defined.

Lemma C7_witness_timeout :
  fetch timeout_target = Raise (HTTPXError TimeoutException) /\
  coordinator._async_update_data lower_ascii timeout_target
    = Raise (HTTPXError TimeoutException) /\
  ~ (exists e, handled_like_api_error lower_ascii timeout_target fresh_east e) /\
  scheduler.tick lower_ascii timeout_target fresh_east
    = {| scheduler.last_data := Some departure_east; scheduler.last_success := false |}.
Proof.
  apply (C7_transport_failure_propagates_unclassified lower_ascii
           validate_datetime validate_Departure
           (client_failing TimeoutException) timeout_target fresh_east
           TimeoutException);
    reflexivity.
Defined.

(** C7, as stated, fails: behind a network that times out the refresh body
    raises the httpx exception itself, so the failure is not handled like a
    [CUMTDAPIError], which leaves the body as [UpdateFailed]. *)
Lemma C7_counterexample_timeout_is_not_update_failed :
  api._client (client_failing TimeoutException)
    (api.request_url "getdeparturesbystop")
    (sent_params (client_failing TimeoutException)
       (api.departures_params "TESTIUTERM" (Some "5"%string) (Some 5)))
    = api.GetRaises TimeoutException /\
  coordinator._async_update_data lower_ascii timeout_target
    = Raise (HTTPXError TimeoutException) /\
  ~ handled_like_api_error lower_ascii timeout_target fresh_east
      (HTTPXError TimeoutException).
Proof.
  split; [reflexivity|]. split; [reflexivity|].
  intros [H _]. discriminate H.
Qed.

Lemma C8_witness_time_only_body :
  api.get_departures_by_stop validate_datetime validate_Departure
    (client_answering {| api.status_code := 200;
                         api.json := Some (PDict time_only_body) |})
    "IU" None (Some 10)
  = Return {| api.time := at_ 14 25; api.departures := [] |}.
Proof.
  apply (C8_missing_departures_key_is_empty_list
           validate_datetime validate_Departure
           (client_answering {| api.status_code := 200;
                                api.json := Some (PDict time_only_body) |})
           "IU" None (Some 10) time_only_body
           (PStr "2026-01-17T14:25:00-06:00") (at_ 14 25));
    reflexivity.
Defined.

Lemma C10_witness_empty_string_filter :
  coordinator._async_update_data lower_ascii
    (coordinator_with (mock_returning [departure_west; departure_east])
       (Some EmptyString))
  = Return (Some departure_west) /\
  coordinator._async_update_data lower_ascii
    (with_direction_filter
       (coordinator_with (mock_returning [departure_west; departure_east])
          (Some EmptyString)) None)
  = coordinator._async_update_data lower_ascii
      (coordinator_with (mock_returning [departure_west; departure_east])
         (Some EmptyString)).
Proof.
  apply (C10_empty_string_filter_is_unset lower_ascii
           (coordinator_with (mock_returning [departure_west; departure_east])
              (Some EmptyString))
           {| api.time := at_ 14 25;
              api.departures := [departure_west; departure_east] |}
           departure_west [departure_east]);
    reflexivity.
Defined.

(* ================================================================= *)
(** ** More on the client: where each outcome of [_request] comes from *)

Lemma py_getitem_raise_cases (v : pyval) (k : string) (e : exn) :
  py_getitem v k = Raise e -> e = TypeError \/ e = KeyError k.
Proof.
  destruct v; simpl; try (intro H; injection H as <-; now left).
  destruct (dict_lookup k items); [discriminate|].
  intro H; injection H as <-; now right.
Qed.

Lemma py_contains_raise_cases (k : string) (v : pyval) (e : exn) :
  py_contains k v = Raise e -> e = TypeError.
Proof.
  destruct v; simpl; try discriminate; intro H; now injection H as <-.
Qed.

Lemma request_outcome_holds (c : api.CUMTDClient) (method : string)
    (params : pydict) :
  request_outcome c method params (api._request c method params).
Proof.
  destruct (api._client c (api.request_url method) (sent_params c params))
    as [h | r] eqn:Hget.
  - replace (api._request c method params) with (@Raise pyval (HTTPXError h)).
    + now apply transport_failed.
    + unfold api._request, sent_params in *. now rewrite Hget.
  - rewrite (request_of_response c method params r Hget).
    destruct (Z.eqb_spec (api.status_code r) 401) as [H401 | Hne].
    { now apply unauthorized with (r := r). }
    destruct (api.json r) as [data|] eqn:Hjson.
    2: { now apply body_not_json with (r := r). }
    destruct (py_contains "status" data) as [[|]|e0] eqn:Hc; simpl.
    3: { apply body_malformed with (r := r) (data := data); auto.
         left. now apply py_contains_raise_cases in Hc. }
    2: { now apply no_status with (r := r). }
    destruct (py_getitem data "status") as [status|e1] eqn:Hs; simpl.
    2: { apply body_malformed with (r := r) (data := data); auto.
         apply py_getitem_raise_cases in Hs. destruct Hs; eauto. }
    destruct (py_getitem status "code") as [code|e2] eqn:Hcode; simpl.
    2: { apply body_malformed with (r := r) (data := data); auto.
         apply py_getitem_raise_cases in Hcode. destruct Hcode; eauto. }
    destruct (py_ne_int code 200) eqn:Hne200.
    2: { now apply status_ok with (r := r) (status := status) (code := code). }
    destruct (py_getitem status "msg") as [msg|e3] eqn:Hmsg; simpl.
    + now apply in_band_error with (r := r) (data := data) (status := status).
    + apply body_malformed with (r := r) (data := data); auto.
      apply py_getitem_raise_cases in Hmsg. destruct Hmsg; eauto.
Qed.

(** X1: [_request] returns a body only for an HTTP status other than 401,
    and only a body that has no [status] member or one whose code equals
    200: a body that carries an error status is never returned. *)
Theorem X1_request_returns_only_clean_bodies
    (c : api.CUMTDClient) (method : string) (params : pydict) (data : pyval) :
  api._request c method params = Return data ->
  exists r,
    api._client c (api.request_url method) (sent_params c params)
      = api.GetReturns r /\
    api.status_code r <> 401 /\
    api.json r = Some data /\
    (py_contains "status" data = Return false \/
     exists status code,
       py_getitem data "status" = Return status /\
       py_getitem status "code" = Return code /\
       py_ne_int code 200 = false).
Proof.
  intro Hreq. pose proof (request_outcome_holds c method params) as H.
  rewrite Hreq in H. inversion H; subst; exists r; repeat split; auto.
  right. exists status, code. auto.
Qed.

(** X2: [_request] raises a plain [CUMTDAPIError] exactly when the HTTP
    status is not 401 and the parsed body has a [status] with a [code]
    other than 200 and a [msg]; the message is built from that code and
    that msg, so no [CUMTDAPIError] has another origin or another text. *)
Theorem X2_api_error_only_from_status
    (c : api.CUMTDClient) (method : string) (params : pydict) (m : fstring) :
  api._request c method params = Raise (CUMTDAPIError m) <->
  exists r data status code msg,
    api._client c (api.request_url method) (sent_params c params)
      = api.GetReturns r /\
    api.status_code r <> 401 /\
    api.json r = Some data /\
    py_contains "status" data = Return true /\
    py_getitem data "status" = Return status /\
    py_getitem status "code" = Return code /\
    py_ne_int code 200 = true /\
    py_getitem status "msg" = Return msg /\
    m = [Lit "API error "; Interp code; Lit ": "; Interp msg].
Proof.
  split.
  - intro Hreq. pose proof (request_outcome_holds c method params) as H.
    rewrite Hreq in H. inversion H; subst.
    + match goal with
      | Hor : _ \/ _ |- _ => destruct Hor as [? | [? ?]]; discriminate
      end.
    + exists r, data, status, code, msg. repeat split; auto.
  - intros (r & data & status & code & msg & Hget & Hne & Hjson & Hc & Hs
            & Hcode & Hne200 & Hmsg & ->).
    rewrite (request_of_response c method params r Hget).
    destruct (Z.eqb_spec (api.status_code r) 401); [contradiction|].
    rewrite Hjson, Hc. simpl. rewrite Hs. simpl. rewrite Hcode. simpl.
    rewrite Hne200, Hmsg. reflexivity.
Qed.

(** X3: [_request] raises an httpx exception exactly when the transport
    raised that exception: a transport failure is never swallowed or
    reclassified, and none is reported that did not happen. *)
Theorem X3_transport_error_iff
    (c : api.CUMTDClient) (method : string) (params : pydict) (h : httpx_error) :
  api._request c method params = Raise (HTTPXError h) <->
  api._client c (api.request_url method) (sent_params c params) = api.GetRaises h.
Proof.
  split.
  - intro Hreq. pose proof (request_outcome_holds c method params) as H.
    rewrite Hreq in H. inversion H; subst; auto.
    match goal with
    | Hor : _ \/ _ |- _ => destruct Hor as [? | [? ?]]; discriminate
    end.
  - intro Hget. unfold api._request, sent_params in *. now rewrite Hget.
Qed.

(* ================================================================= *)
(** ** More on the client: the three fetchers *)

Lemma mapM_Forall2 {A B : Type} (f : A -> result B) (l : list A) (ys : list B) :
  mapM f l = Return ys <-> Forall2 (fun x y => f x = Return y) l ys.
Proof.
  revert ys. induction l as [|x l IH]; intro ys; simpl.
  - split.
    + intro H; injection H as <-. constructor.
    + intro H; inversion H. reflexivity.
  - split.
    + destruct (f x) as [y|e] eqn:Hx; simpl; [|discriminate].
      destruct (mapM f l) as [ys'|e] eqn:Hl; simpl; [|discriminate].
      intro H; injection H as <-. constructor; [exact Hx|]. now apply IH.
    + intro H; inversion H as [|x' y l' ys' Hx Hrest]; subst.
      rewrite Hx. simpl. apply IH in Hrest. now rewrite Hrest.
Qed.

(** A comprehension that meets an element it cannot build raises. *)
Lemma mapM_raises {A B : Type} (f : A -> result B) (l : list A) (x : A) (e : exn) :
  In x l -> f x = Raise e -> exists e', mapM f l = Raise e'.
Proof.
  induction l as [|a l IH]; simpl; [contradiction|].
  intros [-> | Hin] Hx.
  - rewrite Hx. simpl. eauto.
  - destruct (f a) as [y|e0]; simpl; [|eauto].
    destruct (IH Hin Hx) as [e' ->]. simpl. eauto.
Qed.

Lemma prefix_app (a s : string) :
  String.prefix a s = true <-> exists post, s = (a ++ post)%string.
Proof.
  revert s. induction a as [|c a IH]; intro s; simpl.
  - split; [intros _; now exists s | intros _; destruct s; reflexivity].
  - destruct s as [|b s]; simpl.
    + split; [discriminate | intros [post H]; discriminate].
    + destruct (Ascii.ascii_dec c b) as [-> | Hne].
      * rewrite IH. split; intros [post H]; exists post; congruence.
      * split; [discriminate | intros [post H]; congruence].
Qed.

(** [needle in s] holds exactly when [needle] occurs in [s]. *)
Lemma str_contains_occurs (needle s : string) :
  api.str_contains needle s = true <->
  exists pre post, s = (pre ++ needle ++ post)%string.
Proof.
  unfold api.str_contains. induction s as [|b s IH].
  - simpl. destruct needle as [|c needle]; split; try discriminate.
    + intros _. now exists EmptyString, EmptyString.
    + reflexivity.
    + intros [[|p pre] [post H]]; simpl in H; discriminate.
  - cbn [String.index].
    destruct (String.prefix needle (String b s)) eqn:Hp.
    + split; [|reflexivity]. intros _.
      apply prefix_app in Hp. destruct Hp as [post H].
      now exists EmptyString, post.
    + destruct (String.index 0 needle s) as [n|] eqn:Hi.
      * split; [|reflexivity]. intros _.
        destruct (proj1 IH eq_refl) as [pre [post ->]].
        now exists (String b pre), post.
      * split; [discriminate|]. intros [[|p pre] [post H]].
        -- simpl in H.
           assert (String.prefix needle (String b s) = true)
             by (apply prefix_app; now exists post).
           congruence.
        -- simpl in H. injection H as _ ->.
           assert (None = Some 0%nat -> False) by discriminate.
           destruct (proj2 IH) as []; eauto; discriminate.
Qed.

Lemma str_app_assoc (a b c : string) :
  ((a ++ b) ++ c = a ++ b ++ c)%string.
Proof. induction a as [|x a IH]; simpl; [reflexivity | now rewrite IH]. Qed.

Lemma str_contains_trans (a b c : string) :
  api.str_contains a b = true -> api.str_contains b c = true ->
  api.str_contains a c = true.
Proof.
  rewrite !str_contains_occurs.
  intros [p1 [q1 ->]] [p2 [q2 ->]].
  exists (p2 ++ p1)%string, (q1 ++ q2)%string.
  now rewrite !str_app_assoc.
Qed.

Section Fetchers.

Variable lower : string -> string.
Variable validate_datetime : pyval -> option api.datetime.
Variable validate_Departure : pydict -> option api.Departure.
Variable validate_Stop : pydict -> option api.Stop.
Variable validate_Route : pydict -> option api.Route.

(** X4: when [get_departures_by_stop] returns, every element of the body's
    [departures] was validated into the departure at the same position of
    the result: none is dropped, added or moved, and one element that does
    not validate leaves no partial result.  The response time is the
    validated [time] of the body. *)
Theorem X4_departures_validated_in_order
    (c : api.CUMTDClient) (stop_id : string) (route_id : option string)
    (count : option Z) (resp : api.DeparturesResponse) :
  api.get_departures_by_stop validate_datetime validate_Departure
    c stop_id route_id count = Return resp ->
  exists data raw_time raw ds,
    api._request c "getdeparturesbystop"
      (api.departures_params stop_id route_id count) = Return data /\
    py_getitem data "time" = Return raw_time /\
    validate_datetime raw_time = Some (api.time resp) /\
    py_get data "departures" (PList []) = Return raw /\
    py_iter raw = Return ds /\
    Forall2 (fun d dep => api.Departure_init validate_Departure d = Return dep)
      ds (api.departures resp) /\
    length (api.departures resp) = length ds.
Proof.
  unfold api.get_departures_by_stop. intro H.
  destruct (api._request c "getdeparturesbystop" _) as [data|] eqn:Hreq;
    simpl in H; [|discriminate].
  destruct (py_getitem data "time") as [raw_time|] eqn:Ht; simpl in H; [|discriminate].
  destruct (py_get data "departures" (PList [])) as [raw|] eqn:Hraw;
    simpl in H; [|discriminate].
  destruct (py_iter raw) as [ds|] eqn:Hds; simpl in H; [|discriminate].
  destruct (mapM (api.Departure_init validate_Departure) ds) as [deps|] eqn:Hm;
    simpl in H; [|discriminate].
  unfold api.DeparturesResponse_init in H.
  destruct (validate_datetime raw_time) as [t|] eqn:Hv; [|discriminate].
  injection H as <-. simpl.
  apply mapM_Forall2 in Hm.
  exists data, raw_time, raw, ds. repeat split; auto.
  symmetry. eapply Forall2_length; eauto.
Qed.

(** X5: when [get_stops_by_search] returns, every element of the body's
    [stops] was validated, matching or not, and the result holds exactly
    the validated stops whose lowered name contains the lowered query, in
    the order of the body. *)
Theorem X5_search_returns_the_matching_stops
    (c : api.CUMTDClient) (query : string) (resp : api.StopsResponse) :
  api.get_stops_by_search lower validate_datetime validate_Stop c query
    = Return resp ->
  exists data raw ss all_stops,
    api._request c "getstops" [] = Return data /\
    py_get data "stops" (PList []) = Return raw /\
    py_iter raw = Return ss /\
    Forall2 (fun s stop => api.Stop_init validate_Stop s = Return stop)
      ss all_stops /\
    api.stops resp =
      filter (fun stop =>
                api.str_contains (lower query) (lower (api.Stop_stop_name stop)))
             all_stops /\
    (forall stop,
       In stop (api.stops resp) <->
       In stop all_stops /\
       exists pre post,
         lower (api.Stop_stop_name stop) = (pre ++ lower query ++ post)%string).
Proof.
  unfold api.get_stops_by_search. intro H.
  destruct (api._request c "getstops" []) as [data|] eqn:Hreq;
    simpl in H; [|discriminate].
  destruct (py_get data "stops" (PList [])) as [raw|] eqn:Hraw;
    simpl in H; [|discriminate].
  destruct (py_iter raw) as [ss|] eqn:Hss; simpl in H; [|discriminate].
  destruct (mapM (api.Stop_init validate_Stop) ss) as [all_stops|] eqn:Hm;
    simpl in H; [|discriminate].
  destruct (py_getitem data "time") as [raw_time|] eqn:Ht; simpl in H; [|discriminate].
  unfold api.StopsResponse_init in H.
  destruct (validate_datetime raw_time) as [t|] eqn:Hv; [|discriminate].
  injection H as <-. simpl.
  apply mapM_Forall2 in Hm.
  exists data, raw, ss, all_stops. repeat split; auto.
  - unfold api.stop_matches in H. apply filter_In in H. tauto.
  - unfold api.stop_matches in H. apply filter_In in H.
    apply str_contains_occurs. tauto.
  - intros [Hin Hocc]. apply filter_In. split; [exact Hin|].
    unfold api.stop_matches. now apply str_contains_occurs.
Qed.

(** X6: a query whose lowered form occurs in the lowered form of another
    finds at least what the other finds: when the search for the longer
    query returns, so does the search for the shorter one, with the same
    time, and every stop of the first result is in the second. *)
Theorem X6_shorter_query_finds_more
    (c : api.CUMTDClient) (short long : string) (resp : api.StopsResponse) :
  api.str_contains (lower short) (lower long) = true ->
  api.get_stops_by_search lower validate_datetime validate_Stop c long
    = Return resp ->
  exists resp',
    api.get_stops_by_search lower validate_datetime validate_Stop c short
      = Return resp' /\
    api.StopsResponse_time resp' = api.StopsResponse_time resp /\
    incl (api.stops resp) (api.stops resp').
Proof.
  intros Hsub H. unfold api.get_stops_by_search in *.
  destruct (api._request c "getstops" []) as [data|]; simpl in *; [|discriminate].
  destruct (py_get data "stops" (PList [])) as [raw|]; simpl in *; [|discriminate].
  destruct (py_iter raw) as [ss|]; simpl in *; [|discriminate].
  destruct (mapM (api.Stop_init validate_Stop) ss) as [all_stops|];
    simpl in *; [|discriminate].
  destruct (py_getitem data "time") as [raw_time|]; simpl in *; [|discriminate].
  unfold api.StopsResponse_init in *.
  destruct (validate_datetime raw_time) as [t|]; [|discriminate].
  injection H as <-. eexists. split; [reflexivity|]. split; [reflexivity|].
  simpl. intros stop Hin. apply filter_In in Hin. apply filter_In.
  destruct Hin as [Hin Hm]. split; [exact Hin|].
  unfold api.stop_matches in *. eapply str_contains_trans; eauto.
Qed.

(** X7: a body without the [stops] key gives an empty search result for
    every query, and a body without the [routes] key an empty route list;
    neither is an error. *)
Theorem X7_missing_stops_or_routes_key
    (c : api.CUMTDClient) (data : pydict) (raw_time : pyval) (t : api.datetime) :
  dict_lookup "time" data = Some raw_time ->
  validate_datetime raw_time = Some t ->
  (forall query,
     api._request c "getstops" [] = Return (PDict data) ->
     dict_lookup "stops" data = None ->
     api.get_stops_by_search lower validate_datetime validate_Stop c query
       = Return {| api.StopsResponse_time := t; api.stops := [] |}) /\
  (forall stop_id,
     api._request c "getroutesbystop" [("stop_id", PStr stop_id)]%string
       = Return (PDict data) ->
     dict_lookup "routes" data = None ->
     api.get_routes_by_stop validate_datetime validate_Route c stop_id
       = Return {| api.RoutesResponse_time := t; api.routes := [] |}).
Proof.
  intros Htime Hvalid. split.
  - intros query Hreq Hnone. unfold api.get_stops_by_search.
    rewrite Hreq. simpl. unfold dict_get. rewrite Hnone. simpl.
    rewrite Htime. simpl. unfold api.StopsResponse_init. now rewrite Hvalid.
  - intros stop_id Hreq Hnone. unfold api.get_routes_by_stop.
    rewrite Hreq. simpl. unfold dict_get. rewrite Hnone. simpl.
    rewrite Htime. simpl. unfold api.RoutesResponse_init. now rewrite Hvalid.
Qed.

(** X8: one stop of the body that does not validate fails the whole search,
    whatever the query is and whether or not that stop would match it. *)
Theorem X8_invalid_stop_fails_every_search
    (c : api.CUMTDClient) (data : pydict) (ss : list pyval) (bad : pyval)
    (e : exn) (query : string) :
  api._request c "getstops" [] = Return (PDict data) ->
  dict_lookup "stops" data = Some (PList ss) ->
  In bad ss ->
  api.Stop_init validate_Stop bad = Raise e ->
  exists e',
    api.get_stops_by_search lower validate_datetime validate_Stop c query
      = Raise e'.
Proof.
  intros Hreq Hstops Hin Hbad. unfold api.get_stops_by_search.
  rewrite Hreq. simpl. unfold dict_get. rewrite Hstops. simpl.
  destruct (mapM_raises _ ss bad e Hin Hbad) as [e' ->]. simpl. eauto.
Qed.

End Fetchers.

(* ================================================================= *)
(** ** More on the refresh body: what it raises, what it returns *)

Section RefreshBody.

Variable lower : string -> string.

Lemma direction_matches_cases (f : string) (d : api.Departure) :
  (exists b, coordinator.direction_matches lower f d = Return b /\
             (b = true -> direction_is lower f d)) \/
  (coordinator.direction_matches lower f d = Raise AttributeError /\
   exists v, api.direction d = Return v /\ truthy v = true /\
             forall s, v <> PStr s).
Proof.
  unfold coordinator.direction_matches, direction_is.
  rewrite direction_value.
  destruct (dict_get "direction" PNone (api.trip d)) as [|b|z|s|l|items] eqn:Hv;
    simpl.
  - left. eexists. split; [reflexivity | discriminate].
  - destruct b; simpl.
    + right. split; [reflexivity|]. eexists. split; [reflexivity|]. split; [simpl; rewrite ?Hz; reflexivity | intros; discriminate].
    + left. eexists. split; [reflexivity | discriminate].
  - destruct (z =? 0) eqn:Hz; simpl.
    + left. eexists. split; [reflexivity | discriminate].
    + right. split; [reflexivity|]. eexists. split; [reflexivity|]. split; [simpl; rewrite ?Hz; reflexivity | intros; discriminate].
  - destruct (String.eqb s EmptyString); simpl.
    + left. eexists. split; [reflexivity | discriminate].
    + left. eexists. split; [reflexivity|]. intro H.
      apply String.eqb_eq in H. exists s. split; [reflexivity | congruence].
  - destruct l; simpl.
    + left. eexists. split; [reflexivity | discriminate].
    + right. split; [reflexivity|]. eexists. split; [reflexivity|]. split; [simpl; rewrite ?Hz; reflexivity | intros; discriminate].
  - destruct items; simpl.
    + left. eexists. split; [reflexivity | discriminate].
    + right. split; [reflexivity|]. eexists. split; [reflexivity|]. split; [simpl; rewrite ?Hz; reflexivity | intros; discriminate].
Qed.

Lemma filter_departures_cases (f : string) (D : list api.Departure) :
  (exists kept, coordinator.filter_departures lower f D = Return kept /\
                forall d, In d kept -> In d D /\ direction_is lower f d) \/
  (coordinator.filter_departures lower f D = Raise AttributeError /\
   exists d v, In d D /\ api.direction d = Return v /\ truthy v = true /\
               forall s, v <> PStr s).
Proof.
  induction D as [|d D IH]; simpl.
  - left. exists []. split; [reflexivity | contradiction].
  - destruct (direction_matches_cases f d) as [(b & -> & Hb) | (-> & v & Hv)]; simpl.
    + destruct IH as [(kept & -> & Hk) | (-> & d' & v & Hin & Hv)]; simpl.
      * left. eexists. split; [reflexivity|]. intros x Hx.
        destruct b; [destruct Hx as [<- | Hx]|].
        -- split; [now left | now apply Hb].
        -- destruct (Hk x Hx). split; [now right | assumption].
        -- destruct (Hk x Hx). split; [now right | assumption].
      * right. split; [reflexivity|]. exists d', v. split; [now right | exact Hv].
    + right. split; [reflexivity|]. exists d, v. split; [now left | exact Hv].
Qed.

(** X9: no [CUMTDAPIError] leaves the refresh body.  What it raises is
    [UpdateFailed] from a [CUMTDAPIError] of the fetch, or an exception of
    the fetch that is not a [CUMTDAPIError], unchanged, or [AttributeError]
    when a direction filter is set and a departure of the response has a
    truthy direction that is not a string. *)
Theorem X9_refresh_body_exceptions
    (self : coordinator.CUMTDBusCoordinator) (e : exn) :
  coordinator._async_update_data lower self = Raise e ->
  is_CUMTDAPIError e = false /\
  ((exists cause,
      e = UpdateFailed cause /\ fetch self = Raise cause /\
      is_CUMTDAPIError cause = true) \/
   (fetch self = Raise e /\ is_CUMTDAPIError e = false) \/
   (e = AttributeError /\
    exists resp f d v,
      fetch self = Return resp /\
      coordinator.filter_is_set (coordinator.direction_filter self) = Some f /\
      In d (api.departures resp) /\
      api.direction d = Return v /\ truthy v = true /\
      forall s, v <> PStr s)).
Proof.
  unfold coordinator._async_update_data. fold (fetch self).
  destruct (fetch self) as [resp | e0] eqn:Hfetch; simpl.
  - destruct (api.departures resp) as [|d0 D0] eqn:HD; [discriminate|].
    destruct (coordinator.filter_is_set (coordinator.direction_filter self))
      as [f|] eqn:Hf; cbv beta iota; [|discriminate].
    destruct (filter_departures_cases f (d0 :: D0))
      as [(kept & Hk & _) | (Hr & d & v & Hin & Hv)]; rewrite ?Hk, ?Hr; simpl.
    + destruct kept; discriminate.
    + intro H; injection H as <-. split; [reflexivity|].
      right. right. split; [reflexivity|].
      exists resp, f, d, v. rewrite HD. auto.
  - destruct (is_CUMTDAPIError e0) eqn:Hapi; intro H; injection H as <-.
    + split; [reflexivity|]. left. eauto.
    + split; [exact Hapi|]. right. left. auto.
Qed.

(** X10: a departure the refresh body returns is an element of the fetched
    response; with a direction filter set its direction is a string equal to
    the filter up to case, and with none set it is the first element.  This
    holds for every response, also one whose directions are not strings. *)
Theorem X10_returned_departure_is_from_the_response
    (self : coordinator.CUMTDBusCoordinator) (d : api.Departure) :
  coordinator._async_update_data lower self = Return (Some d) ->
  exists resp,
    fetch self = Return resp /\
    In d (api.departures resp) /\
    (forall f,
       coordinator.filter_is_set (coordinator.direction_filter self) = Some f ->
       direction_is lower f d) /\
    (coordinator.filter_is_set (coordinator.direction_filter self) = None ->
     hd_error (api.departures resp) = Some d).
Proof.
  unfold coordinator._async_update_data. fold (fetch self).
  destruct (fetch self) as [resp | e0] eqn:Hfetch; simpl.
  2: { destruct (is_CUMTDAPIError e0); discriminate. }
  destruct (api.departures resp) as [|d0 D0] eqn:HD; [discriminate|].
  destruct (coordinator.filter_is_set (coordinator.direction_filter self))
    as [f|] eqn:Hf; cbv beta iota.
  - destruct (filter_departures_cases f (d0 :: D0))
      as [(kept & Hk & Hin) | (Hr & _)]; rewrite ?Hk, ?Hr; simpl; [|discriminate].
    destruct kept as [|k kept]; [discriminate|].
    intro H; injection H as ->.
    exists resp. rewrite HD. destruct (Hin d (or_introl eq_refl)) as [H1 H2].
    repeat split; auto.
    + intros f' Hf'. injection Hf' as <-. exact H2.
    + discriminate.
  - intro H; injection H as ->. exists resp. rewrite HD.
    repeat split; auto.
    + now left.
    + discriminate.
Qed.

Lemma filter_departures_complete (f : string) (D kept : list api.Departure) :
  coordinator.filter_departures lower f D = Return kept ->
  forall d s,
    In d D -> api.direction d = Return (PStr s) -> s <> EmptyString ->
    lower s = lower f -> In d kept.
Proof.
  revert kept. induction D as [|a D IH]; intros kept H d s Hin Hd Hs Hl.
  - contradiction.
  - simpl in H.
    destruct (coordinator.direction_matches lower f a) as [keep|] eqn:Ha;
      simpl in H; [|discriminate].
    destruct (coordinator.filter_departures lower f D) as [kept'|] eqn:HD;
      simpl in H; [|discriminate].
    injection H as <-. destruct Hin as [-> | Hin].
    + unfold coordinator.direction_matches in Ha. rewrite Hd in Ha. simpl in Ha.
      destruct (String.eqb_spec s EmptyString); [contradiction|]. simpl in Ha.
      rewrite Hl, String.eqb_refl in Ha. injection Ha as <-. now left.
    + specialize (IH kept' eq_refl d s Hin Hd Hs Hl).
      destruct keep; [now right | assumption].
Qed.

(** X16: the refresh body returns absent only when the fetched response has
    no departure, or a direction filter is set and no departure of the
    response has a non-empty string direction equal to it up to case: a
    matching departure is never passed over. *)
Theorem X16_absent_only_when_nothing_matches
    (self : coordinator.CUMTDBusCoordinator) :
  coordinator._async_update_data lower self = Return None ->
  exists resp,
    fetch self = Return resp /\
    (api.departures resp = [] \/
     exists f,
       coordinator.filter_is_set (coordinator.direction_filter self) = Some f /\
       forall d s,
         In d (api.departures resp) ->
         api.direction d = Return (PStr s) -> s <> EmptyString ->
         lower s <> lower f).
Proof.
  unfold coordinator._async_update_data. fold (fetch self).
  destruct (fetch self) as [resp | e0] eqn:Hfetch; simpl.
  2: { destruct (is_CUMTDAPIError e0); discriminate. }
  destruct (api.departures resp) as [|d0 D0] eqn:HD.
  { intros _. exists resp. auto. }
  destruct (coordinator.filter_is_set (coordinator.direction_filter self))
    as [f|] eqn:Hf; cbv beta iota; [|discriminate].
  destruct (coordinator.filter_departures lower f (d0 :: D0)) as [kept|e] eqn:Hk;
    simpl; [|destruct (is_CUMTDAPIError e); discriminate].
  destruct kept as [|k kept]; simpl; [|discriminate].
  intros _. exists resp. split; [reflexivity|]. right. exists f.
  split; [reflexivity|]. intros d s Hin Hd Hs Hl. rewrite HD in Hin.
  exact (filter_departures_complete f (d0 :: D0) [] Hk d s Hin Hd Hs Hl).
Qed.

End RefreshBody.

(* ================================================================= *)
(** ** The configuration flow *)

Lemma validate_api_key_cases (c : api.CUMTDClient) :
  match api.validate_api_key c with
  | Return b => b = true
  | Raise e =>
      api._request c "getstops" [] = Raise e /\
      (is_AuthenticationError e = true \/ is_CUMTDAPIError e = false)
  end.
Proof.
  unfold api.validate_api_key.
  destruct (api._request c "getstops" []) as [data | e]; [reflexivity|].
  destruct (is_AuthenticationError e) eqn:Hauth; [auto|].
  destruct (is_CUMTDAPIError e) eqn:Hapi; [reflexivity | auto].
Qed.

(** X11: what [async_step_user] answers to an entered key.  It creates the
    entry, holding that key and an empty stop list, exactly when
    [validate_api_key] returns, which includes every in-band API error of
    the probe; it shows the form with [invalid_auth] exactly when the probe's
    HTTP status is 401; a transport failure shows [unknown]; and
    [cannot_connect] is never shown. *)
Theorem X11_user_step_outcomes
    (network : string -> pydict -> api.get_outcome) (api_key : string) :
  (config_flow.async_step_user network (Some api_key) = entry_created api_key <->
   api.validate_api_key (flow_client network api_key) = Return true) /\
  (forall m,
     api._request (flow_client network api_key) "getstops" []
       = Raise (CUMTDAPIError m) ->
     config_flow.async_step_user network (Some api_key) = entry_created api_key) /\
  (config_flow.async_step_user network (Some api_key)
     = config_flow.user_form [("base", "invalid_auth")]%string <->
   exists r,
     network (api.request_url "getstops") [("key", PStr api_key)]%string
       = api.GetReturns r /\
     api.status_code r = 401) /\
  (forall h,
     network (api.request_url "getstops") [("key", PStr api_key)]%string
       = api.GetRaises h ->
     config_flow.async_step_user network (Some api_key)
       = config_flow.user_form [("base", "unknown")]%string) /\
  config_flow.async_step_user network (Some api_key)
    <> config_flow.user_form [("base", "cannot_connect")]%string.
Proof.
  unfold config_flow.async_step_user. fold (flow_client network api_key).
  pose proof (validate_api_key_cases (flow_client network api_key)) as Hv.
  pose proof (request_auth_iff (flow_client network api_key) "getstops" []) as Hauth.
  change (sent_params (flow_client network api_key) [])
    with [("key", PStr api_key)]%string in Hauth.
  change (api._client (flow_client network api_key)) with network in Hauth.
  destruct (api.validate_api_key (flow_client network api_key)) as [b | e] eqn:Hval.
  - subst b. repeat split; auto; try discriminate.
    + intros [r [Hget H401]].
      destruct (proj2 Hauth (ex_intro _ r (conj Hget H401))) as [e [Hreq He]].
      unfold api.validate_api_key in Hval. rewrite Hreq, He in Hval. discriminate.
    + intros h Hget. exfalso.
      unfold api.validate_api_key, api._request in Hval. simpl in Hval.
      rewrite Hget in Hval. discriminate.
  - destruct Hv as [Hreq Hcls]. unfold config_flow.user_errors, entry_created.
    repeat split; try discriminate.
    + intros m Hm. rewrite Hm in Hreq. injection Hreq as <-.
      destruct Hcls; discriminate.
    + intro H. apply Hauth. exists e. split; [exact Hreq|].
      destruct (is_AuthenticationError e); [reflexivity|].
      destruct (is_CUMTDAPIError e); discriminate.
    + intros [r [Hget H401]].
      destruct (proj2 Hauth (ex_intro _ r (conj Hget H401))) as [e' [Hreq' He']].
      rewrite Hreq in Hreq'. injection Hreq' as <-. now rewrite He'.
    + intros h Hget.
      assert (Hh : api._request (flow_client network api_key) "getstops" []
                   = Raise (HTTPXError h)).
      { unfold api._request. simpl. now rewrite Hget. }
      rewrite Hreq in Hh. injection Hh as ->. reflexivity.
    + destruct Hcls as [-> | Hna]; [discriminate|].
      destruct (is_AuthenticationError e); [discriminate|].
      rewrite Hna. discriminate.
Qed.

Lemma nth_error_list_pop {A : Type} (idx : nat) (l : list A) :
  (idx < length l)%nat ->
  length (config_flow.list_pop idx l) = (length l - 1)%nat /\
  (forall j, (j < idx)%nat ->
     nth_error (config_flow.list_pop idx l) j = nth_error l j) /\
  (forall j, (idx <= j)%nat ->
     nth_error (config_flow.list_pop idx l) j = nth_error l (S j)).
Proof.
  intro Hlt. unfold config_flow.list_pop.
  assert (Hf : length (firstn idx l) = idx) by (apply firstn_length_le; lia).
  repeat split.
  - rewrite length_app, Hf, length_skipn. lia.
  - intros j Hj. rewrite nth_error_app1 by lia. rewrite nth_error_firstn.
    destruct (Nat.ltb_spec j idx); [reflexivity | lia].
  - intros j Hj. rewrite nth_error_app2 by lia. rewrite Hf, nth_error_skipn.
    f_equal. lia.
Qed.

(** X12: [async_step_remove_stop] with a position inside the stop list
    saves the list without the stop at that position: one stop fewer, the
    stops before it and the stops after it kept in their order.  With a
    position past the end it saves nothing and goes back to the menu. *)
Theorem X12_remove_stop_removes_that_stop
    (options : pydict) (stops : list pyval) (idx : nat) :
  py_iter (dict_get "stops" (PList []) options) = Return stops ->
  ((idx < length stops)%nat ->
   exists stops',
     config_flow.async_step_remove_stop options idx =
       Return (config_flow.create_entry "" [("stops", PList stops')]%string None) /\
     length stops' = (length stops - 1)%nat /\
     (forall j, (j < idx)%nat -> nth_error stops' j = nth_error stops j) /\
     (forall j, (idx <= j)%nat -> nth_error stops' j = nth_error stops (S j))) /\
  ((length stops <= idx)%nat ->
   config_flow.async_step_remove_stop options idx = Return config_flow.step_init).
Proof.
  intro Hstops. unfold config_flow.async_step_remove_stop. rewrite Hstops. simpl.
  split; intro H.
  - destruct (Nat.ltb_spec idx (length stops)); [|lia].
    eexists. split; [reflexivity|]. now apply nth_error_list_pop.
  - destruct (Nat.ltb_spec idx (length stops)); [lia | reflexivity].
Qed.

(* ================================================================= *)
(** ** The clean-up of the registry and the sensor's unique id *)

Lemma str_app_inv_head (a x y : string) :
  (a ++ x = a ++ y)%string -> x = y.
Proof. induction a as [|c a IH]; simpl; intro H; [exact H | injection H as H; auto]. Qed.

Lemma str_length_app (a b : string) :
  String.length (a ++ b) = (String.length a + String.length b)%nat.
Proof. induction a as [|c a IH]; simpl; [reflexivity | now rewrite IH]. Qed.

Lemma str_app_inv_tail (b x y : string) :
  (x ++ b = y ++ b)%string -> x = y.
Proof.
  revert y. induction x as [|c x IH]; intros [|d y] H; simpl in H.
  - reflexivity.
  - apply (f_equal String.length) in H. simpl in H.
    rewrite str_length_app in H. lia.
  - apply (f_equal String.length) in H. simpl in H.
    rewrite str_length_app in H. lia.
  - injection H as -> H. f_equal. now apply IH.
Qed.

Section Cleanup.

Variable lower : string -> string.
Variable py_str : pyval -> string.

(** X13: with the ids of the configured stops computed, the clean-up
    removes exactly the registry entries whose unique id is none of these
    ids, and no other; with no stop configured it removes every entry. *)
Theorem X13_cleanup_removes_exactly_the_unconfigured
    (entry_id : string) (options : pydict)
    (entries : list integration.RegistryEntry)
    (stops : list pyval) (valid : list string) :
  py_iter (dict_get "stops" (PList []) options) = Return stops ->
  Forall2 (fun stop uid =>
             integration.stop_unique_id py_str entry_id stop = Return uid)
    stops valid ->
  exists removed,
    integration._async_cleanup_orphaned_entities py_str entry_id options entries
      = Return removed /\
    (forall id,
       In id removed <->
       exists e, In e entries /\ integration.entity_id e = id /\
                 ~ In (integration.unique_id e) valid) /\
    (stops = [] -> removed = map integration.entity_id entries).
Proof.
  intros Hstops Hvalid. unfold integration._async_cleanup_orphaned_entities.
  rewrite Hstops. simpl. apply mapM_Forall2 in Hvalid. rewrite Hvalid. simpl.
  eexists. split; [reflexivity|]. split.
  - intro id. rewrite in_map_iff. split.
    + intros [e [Hid Hin]]. apply filter_In in Hin. destruct Hin as [Hin Hneg].
      exists e. repeat split; auto. intro Hv.
      apply negb_true_iff in Hneg.
      assert (existsb (String.eqb (integration.unique_id e)) valid = true).
      { apply existsb_exists. exists (integration.unique_id e).
        split; [exact Hv | apply String.eqb_refl]. }
      congruence.
    + intros [e [Hin [Hid Hnot]]]. exists e. split; [exact Hid|].
      apply filter_In. split; [exact Hin|]. apply negb_true_iff.
      destruct (existsb (String.eqb (integration.unique_id e)) valid) eqn:Hex;
        [|reflexivity].
      apply existsb_exists in Hex. destruct Hex as [u [Hu Heq]].
      apply String.eqb_eq in Heq. subst u. contradiction.
  - intros ->. simpl in Hvalid. injection Hvalid as <-. simpl.
    f_equal. induction entries as [|e es IH]; simpl; [reflexivity | now rewrite IH].
Qed.

Section Builtins.

(** [str] of a string is the string; [lower] leaves ["all"] as it is. *)
Hypothesis py_str_of_str : forall s, py_str (PStr s) = s.
Hypothesis lower_all : lower "all" = "all"%string.

(** X14: for a configured stop with no route and no direction filter, the
    sensor's unique id is built from the sanitised stop id (colons and
    spaces replaced, lowered), the clean-up's id from the stop id as it is.
    So the clean-up run on that one stop keeps the stop's own sensor exactly
    when sanitising leaves the stop id unchanged, and removes it
    otherwise. *)
Theorem X14_cleanup_keeps_sensor_iff_stop_id_is_safe
    (coord : coordinator.CUMTDBusCoordinator) (entry_id : string)
    (stop_config : pydict) (stop_id : string) (custom_name : pyval) :
  dict_lookup "stop_id" stop_config = Some (PStr stop_id) ->
  truthy (dict_get "route_id" PNone stop_config) = false ->
  truthy (dict_get "direction_filter" PNone stop_config) = false ->
  exists sens,
    sensor.CUMTDNextBusSensor_init lower coord entry_id stop_config custom_name
      = Return sens /\
    sensor._attr_unique_id sens
      = (entry_id ++ "_" ++ safe_stop lower stop_id ++ "_all_all")%string /\
    forall e,
      integration.unique_id e = sensor._attr_unique_id sens ->
      integration._async_cleanup_orphaned_entities py_str entry_id
        [("stops", PList [PDict stop_config])]%string [e]
      = Return (if String.eqb (safe_stop lower stop_id) stop_id
                then [] else [integration.entity_id e]).
Proof.
  intros Hsid Hroute Hdir.
  unfold sensor.CUMTDNextBusSensor_init, sensor.py_or.
  rewrite Hroute, Hdir. simpl. rewrite Hsid. simpl. rewrite lower_all.
  eexists. split; [reflexivity|]. split; [reflexivity|].
  simpl. intros e He.
  unfold integration._async_cleanup_orphaned_entities,
    integration.stop_unique_id, sensor.py_or. simpl.
  rewrite Hsid. simpl. rewrite Hroute, Hdir. simpl.
  rewrite !py_str_of_str, He. unfold safe_stop.
  set (safe := lower (sensor.str_replace " " "_" (sensor.str_replace ":" "_" stop_id))).
  destruct (String.eqb_spec safe stop_id) as [Heq | Hne].
  - rewrite Heq, String.eqb_refl. reflexivity.
  - match goal with
    | |- context [String.eqb ?a ?b] => destruct (String.eqb_spec a b) as [Habs|_]
    end; [|reflexivity].
    exfalso. apply Hne.
    apply str_app_inv_head in Habs. simpl in Habs. injection Habs as Habs.
    now apply str_app_inv_tail in Habs.
Qed.

End Builtins.

End Cleanup.

(* ================================================================= *)
(** ** The session handle *)

Lemma session_run_open (calls : list api.session_call) :
  api.session_run true calls =
    (true,
     repeat api.Aclose
       (length (filter (fun call => match call with
                                    | api.Close => true
                                    | api.Request => false
                                    end) calls))).
Proof.
  induction calls as [|call calls IH]; [reflexivity|].
  destruct call; simpl; rewrite IH; reflexivity.
Qed.

(** X15: over any sequence of requests and closes on a fresh client, the
    httpx client is constructed at most once, by the first request, and
    never again, not even after a close; a close before the first request
    does nothing; every close after it calls [aclose] on that same client,
    since the handle is not reset. *)
Theorem X15_session_is_constructed_once (calls : list api.session_call) :
  (Forall (fun call => call = api.Close) calls /\
   api.session_run api.CUMTDClient_init calls = (false, [])) \/
  (exists before after,
     calls = before ++ api.Request :: after /\
     Forall (fun call => call = api.Close) before /\
     api.session_run api.CUMTDClient_init calls =
       (true,
        api.Construct ::
        repeat api.Aclose
          (length (filter (fun call => match call with
                                       | api.Close => true
                                       | api.Request => false
                                       end) after)))).
Proof.
  unfold api.CUMTDClient_init.
  induction calls as [|call calls IH].
  - left. split; [constructor | reflexivity].
  - destruct call.
    + right. exists [], calls. split; [reflexivity|]. split; [constructor|].
      simpl. now rewrite session_run_open.
    + destruct IH as [[Hall Hrun] | (before & after & -> & Hall & Hrun)].
      * left. split; [now constructor|]. simpl. now rewrite Hrun.
      * right. exists (api.Close :: before), after.
        split; [reflexivity|]. split; [now constructor|].
        simpl. simpl in Hrun. now rewrite Hrun.
Qed.

(* ================================================================= *)
(** ** More runs on the fixtures *)

Example run_search_illinois :
  api.get_stops_by_search lower_ascii validate_datetime validate_Stop
    (ok_client stops_body) "Illinois"
  = Return {| api.StopsResponse_time := at_ 14 25;
              api.stops :=
                [ {| api.Stop_stop_id := "IT";
                     api.Stop_stop_name := "Illinois Terminal" |};
                  {| api.Stop_stop_id := "ILLSPFLD";
                     api.Stop_stop_name := "Illinois & Springfield" |} ] |}.
Proof. reflexivity. Qed.

Example run_search_with_bad_stop :
  api.get_stops_by_search lower_ascii validate_datetime validate_Stop
    (ok_client bad_stops_body) "Illinois"
  = Raise TypeError.
Proof. reflexivity. Qed.

Example run_user_step_server_fault :
  config_flow.async_step_user
    (fun _ _ => api.GetReturns {| api.status_code := 200;
                                  api.json := Some (status_body 500 "Internal error") |})
    (Some "abc"%string)
  = entry_created "abc".
Proof. reflexivity. Qed.

Example run_user_step_network_down :
  config_flow.async_step_user (fun _ _ => api.GetRaises NetworkError)
    (Some "abc"%string)
  = config_flow.user_form [("base", "unknown")]%string.
Proof. reflexivity. Qed.

Example run_sensor_unique_id :
  sensor.CUMTDNextBusSensor_init lower_ascii
    (coordinator_with (mock_returning []) None) "entry1"
    [("stop_id", PStr "IU:1"); ("route_id", PStr "50E");
     ("direction_filter", PStr "East Bound")]%string PNone
  = Return {| sensor._attr_name :=
                [Interp (PStr "Test Illinois Terminal"); Lit " (";
                 Lit "Route "; Interp (PStr "50E"); Lit ", "; Lit "East Bound";
                 Lit ")"; Lit " Next Bus"];
              sensor._attr_unique_id := "entry1_iu_1_50e_east_bound";
              sensor._attr_icon := "mdi:bus" |}.
Proof. reflexivity. Qed.

Example run_cleanup_removes_own_sensor :
  integration._async_cleanup_orphaned_entities py_str_simple "entry1"
    [("stops", PList [PDict stop_iu])]%string
    [sensor_entry_iu; raw_entry_iu; orphan_entry]
  = Return ["sensor.illini_union_next_bus"; "sensor.old_stop_next_bus"]%string.
Proof. reflexivity. Qed.

Example run_session :
  api.session_run api.CUMTDClient_init
    [api.Close; api.Request; api.Request; api.Close; api.Request; api.Close]
  = (true, [api.Construct; api.Aclose; api.Aclose]).
Proof. reflexivity. Qed.

(** *** Instances of the theorems of this part *)

Lemma X1_witness_returned_body :
  exists r,
    api._client (ok_client time_only_body) (api.request_url "getstops")
      (sent_params (ok_client time_only_body) []) = api.GetReturns r /\
    api.status_code r <> 401 /\
    api.json r = Some (PDict time_only_body) /\
    (py_contains "status" (PDict time_only_body) = Return false \/
     exists status code,
       py_getitem (PDict time_only_body) "status" = Return status /\
       py_getitem status "code" = Return code /\
       py_ne_int code 200 = false).
Proof.
  exact (X1_request_returns_only_clean_bodies (ok_client time_only_body)
           "getstops" [] (PDict time_only_body) eq_refl).
Defined.

Lemma X4_witness_two_departures :
  exists data raw_time raw ds,
    api._request (ok_client departures_body) "getdeparturesbystop"
      (api.departures_params "IU" None (Some 5)) = Return data /\
    py_getitem data "time" = Return raw_time /\
    validate_datetime raw_time = Some (at_ 14 25) /\
    py_get data "departures" (PList []) = Return raw /\
    py_iter raw = Return ds /\
    Forall2 (fun d dep =>
               api.Departure_init validate_Departure_strict d = Return dep)
      ds [departure "5E Green" "5" [("direction", PStr "Eastbound")]%string 5;
          departure "5W Teal" "5" [("direction", PStr "Westbound")]%string 3] /\
    length [departure "5E Green" "5" [("direction", PStr "Eastbound")]%string 5;
            departure "5W Teal" "5" [("direction", PStr "Westbound")]%string 3]
      = length ds.
Proof.
  exact (X4_departures_validated_in_order validate_datetime
           validate_Departure_strict (ok_client departures_body)
           "IU" None (Some 5)
           {| api.time := at_ 14 25;
              api.departures :=
                [departure "5E Green" "5" [("direction", PStr "Eastbound")]%string 5;
                 departure "5W Teal" "5" [("direction", PStr "Westbound")]%string 3] |}
           eq_refl).
Defined.

Lemma X5_witness_search_illinois :
  exists data raw ss all_stops,
    api._request (ok_client stops_body) "getstops" [] = Return data /\
    py_get data "stops" (PList []) = Return raw /\
    py_iter raw = Return ss /\
    Forall2 (fun s stop => api.Stop_init validate_Stop s = Return stop)
      ss all_stops /\
    [ {| api.Stop_stop_id := "IT"; api.Stop_stop_name := "Illinois Terminal" |};
      {| api.Stop_stop_id := "ILLSPFLD";
         api.Stop_stop_name := "Illinois & Springfield" |} ] =
      filter (fun stop =>
                api.str_contains (lower_ascii "Illinois")
                  (lower_ascii (api.Stop_stop_name stop)))
             all_stops /\
    (forall stop,
       In stop
         [ {| api.Stop_stop_id := "IT"; api.Stop_stop_name := "Illinois Terminal" |};
           {| api.Stop_stop_id := "ILLSPFLD";
              api.Stop_stop_name := "Illinois & Springfield" |} ] <->
       In stop all_stops /\
       exists pre post,
         lower_ascii (api.Stop_stop_name stop)
           = (pre ++ lower_ascii "Illinois" ++ post)%string).
Proof.
  exact (X5_search_returns_the_matching_stops lower_ascii validate_datetime
           validate_Stop (ok_client stops_body) "Illinois"
           {| api.StopsResponse_time := at_ 14 25;
              api.stops :=
                [ {| api.Stop_stop_id := "IT";
                     api.Stop_stop_name := "Illinois Terminal" |};
                  {| api.Stop_stop_id := "ILLSPFLD";
                     api.Stop_stop_name := "Illinois & Springfield" |} ] |}
           eq_refl).
Defined.

Lemma X6_witness_spring_and_springfield :
  exists resp',
    api.get_stops_by_search lower_ascii validate_datetime validate_Stop
      (ok_client stops_body) "SPRING" = Return resp' /\
    api.StopsResponse_time resp' = at_ 14 25 /\
    incl [ {| api.Stop_stop_id := "ILLSPFLD";
              api.Stop_stop_name := "Illinois & Springfield" |} ]
         (api.stops resp').
Proof.
  exact (X6_shorter_query_finds_more lower_ascii validate_datetime validate_Stop
           (ok_client stops_body) "SPRING" "& Springfield"
           {| api.StopsResponse_time := at_ 14 25;
              api.stops :=
                [ {| api.Stop_stop_id := "ILLSPFLD";
                     api.Stop_stop_name := "Illinois & Springfield" |} ] |}
           eq_refl eq_refl).
Defined.

Lemma X7_witness_time_only_body :
  api.get_stops_by_search lower_ascii validate_datetime validate_Stop
    (ok_client time_only_body) "Illinois"
  = Return {| api.StopsResponse_time := at_ 14 25; api.stops := [] |} /\
  api.get_routes_by_stop validate_datetime validate_Route
    (ok_client time_only_body) "IU"
  = Return {| api.RoutesResponse_time := at_ 14 25; api.routes := [] |}.
Proof.
  pose proof (X7_missing_stops_or_routes_key lower_ascii validate_datetime
                validate_Stop validate_Route (ok_client time_only_body)
                time_only_body (PStr "2026-01-17T14:25:00-06:00") (at_ 14 25)
                eq_refl eq_refl) as [Hstops Hroutes].
  split.
  - exact (Hstops "Illinois"%string eq_refl eq_refl).
  - exact (Hroutes "IU"%string eq_refl eq_refl).
Defined.

Lemma X8_witness_bad_stop :
  exists e',
    api.get_stops_by_search lower_ascii validate_datetime validate_Stop
      (ok_client bad_stops_body) "Springfield" = Raise e'.
Proof.
  exact (X8_invalid_stop_fails_every_search lower_ascii validate_datetime
           validate_Stop (ok_client bad_stops_body) bad_stops_body
           [raw_stop "IT" "Illinois Terminal"; PInt 3] (PInt 3) TypeError
           "Springfield" eq_refl eq_refl (or_intror (or_introl eq_refl)) eq_refl).
Defined.

Lemma X9_witness_ill_typed_direction :
  is_CUMTDAPIError AttributeError = false /\
  ((exists cause,
      AttributeError = UpdateFailed cause /\
      fetch (coordinator_with
               (mock_returning [departure "5E Green" "5" [("direction", PInt 5)]%string 5])
               (Some "Eastbound"%string)) = Raise cause /\
      is_CUMTDAPIError cause = true) \/
   (fetch (coordinator_with
             (mock_returning [departure "5E Green" "5" [("direction", PInt 5)]%string 5])
             (Some "Eastbound"%string)) = Raise AttributeError /\
    is_CUMTDAPIError AttributeError = false) \/
   (AttributeError = AttributeError /\
    exists resp f d v,
      fetch (coordinator_with
               (mock_returning [departure "5E Green" "5" [("direction", PInt 5)]%string 5])
               (Some "Eastbound"%string)) = Return resp /\
      coordinator.filter_is_set
        (coordinator.direction_filter
           (coordinator_with
              (mock_returning [departure "5E Green" "5" [("direction", PInt 5)]%string 5])
              (Some "Eastbound"%string))) = Some f /\
      In d (api.departures resp) /\
      api.direction d = Return v /\ truthy v = true /\
      forall s, v <> PStr s)).
Proof.
  exact (X9_refresh_body_exceptions lower_ascii
           (coordinator_with
              (mock_returning [departure "5E Green" "5" [("direction", PInt 5)]%string 5])
              (Some "Eastbound"%string))
           AttributeError eq_refl).
Defined.

Lemma X10_witness_eastbound :
  exists resp,
    fetch (coordinator_with (mock_returning [departure_west; departure_east])
             (Some "Eastbound"%string)) = Return resp /\
    In departure_east (api.departures resp) /\
    (forall f,
       coordinator.filter_is_set
         (coordinator.direction_filter
            (coordinator_with (mock_returning [departure_west; departure_east])
               (Some "Eastbound"%string))) = Some f ->
       direction_is lower_ascii f departure_east) /\
    (coordinator.filter_is_set
       (coordinator.direction_filter
          (coordinator_with (mock_returning [departure_west; departure_east])
             (Some "Eastbound"%string))) = None ->
     hd_error (api.departures resp) = Some departure_east).
Proof.
  exact (X10_returned_departure_is_from_the_response lower_ascii
           (coordinator_with (mock_returning [departure_west; departure_east])
              (Some "Eastbound"%string))
           departure_east eq_refl).
Defined.

Lemma X12_witness_remove_middle_stop :
  exists stops',
    config_flow.async_step_remove_stop
      [("stops", PList [PStr "a"; PStr "b"; PStr "c"])]%string 1 =
      Return (config_flow.create_entry "" [("stops", PList stops')]%string None) /\
    length stops' = (3 - 1)%nat /\
    (forall j, (j < 1)%nat ->
       nth_error stops' j = nth_error [PStr "a"; PStr "b"; PStr "c"] j) /\
    (forall j, (1 <= j)%nat ->
       nth_error stops' j = nth_error [PStr "a"; PStr "b"; PStr "c"] (S j)).
Proof.
  apply (proj1 (X12_remove_stop_removes_that_stop
                  [("stops", PList [PStr "a"; PStr "b"; PStr "c"])]%string
                  [PStr "a"; PStr "b"; PStr "c"] 1 eq_refl)).
  simpl. lia.
Defined.

Lemma X13_witness_one_stop_two_entries :
  exists removed,
    integration._async_cleanup_orphaned_entities py_str_simple "entry1"
      [("stops", PList [PDict stop_iu])]%string [raw_entry_iu; orphan_entry]
      = Return removed /\
    (forall id,
       In id removed <->
       exists e, In e [raw_entry_iu; orphan_entry] /\
                 integration.entity_id e = id /\
                 ~ In (integration.unique_id e) ["entry1_IU_all_all"%string]) /\
    ([PDict stop_iu] = [] ->
     removed = map integration.entity_id [raw_entry_iu; orphan_entry]).
Proof.
  apply (X13_cleanup_removes_exactly_the_unconfigured py_str_simple "entry1"
           [("stops", PList [PDict stop_iu])]%string [raw_entry_iu; orphan_entry]
           [PDict stop_iu] ["entry1_IU_all_all"%string] eq_refl).
  repeat constructor.
Defined.

Lemma X14_witness_uppercase_stop_id :
  exists sens,
    sensor.CUMTDNextBusSensor_init lower_ascii
      (coordinator_with (mock_returning []) None) "entry1" stop_iu PNone
      = Return sens /\
    sensor._attr_unique_id sens
      = ("entry1" ++ "_" ++ safe_stop lower_ascii "IU" ++ "_all_all")%string /\
    forall e,
      integration.unique_id e = sensor._attr_unique_id sens ->
      integration._async_cleanup_orphaned_entities py_str_simple "entry1"
        [("stops", PList [PDict stop_iu])]%string [e]
      = Return (if String.eqb (safe_stop lower_ascii "IU") "IU"
                then [] else [integration.entity_id e]).
Proof.
  apply (X14_cleanup_keeps_sensor_iff_stop_id_is_safe lower_ascii py_str_simple
           (fun s => eq_refl) eq_refl
           (coordinator_with (mock_returning []) None) "entry1" stop_iu "IU" PNone);
    reflexivity.
Defined.

Lemma X16_witness_only_westbound :
  exists resp,
    fetch (coordinator_with (mock_returning [departure_west; departure_no_direction])
             (Some "Eastbound"%string)) = Return resp /\
    (api.departures resp = [] \/
     exists f,
       coordinator.filter_is_set
         (coordinator.direction_filter
            (coordinator_with
               (mock_returning [departure_west; departure_no_direction])
               (Some "Eastbound"%string))) = Some f /\
       forall d s,
         In d (api.departures resp) ->
         api.direction d = Return (PStr s) -> s <> EmptyString ->
         lower_ascii s <> lower_ascii f).
Proof.
  exact (X16_absent_only_when_nothing_matches lower_ascii
           (coordinator_with
              (mock_returning [departure_west; departure_no_direction])
              (Some "Eastbound"%string))
           eq_refl).
Defined.
